(** * terraform-provider-conductor: manifest reconciliation and workflow versioning

    A shallow embedding of the provider's manifest clean-up / merge code
    (internal/provider/manifest_state_cleanup_merge.go), of the manifest name
    validator, and of the task-definition and workflow-definition resources,
    together with the properties the specification states about them.

    Go maps [map[string]interface{}] are finite maps [gmap string value];
    [interface{}] values are the tagged union [value]; the HTTP collaborator
    is a state-passing function on an abstract server. *)

From Stdlib Require Import ZArith QArith Qround Lia.
From stdpp Require Import gmap strings list fin_maps pretty.

Set Warnings "-register-all".
Close Scope Q_scope.
Local Open Scope Z_scope.

(** ** Dynamic values *)

(** The dynamic types that occur behind [interface{}] in a manifest map.
    [encoding/json] produces nil, bool, float64, string, map and slice; the
    resources themselves store an [int32] under the key "version" before a
    write, which is the one shape that is none of the former.

    A float64 decoded from JSON is finite, and Go compares floats by [==]
    (also inside [reflect.DeepEqual]), so a number is represented by its
    exact rational value and compared by [Qeq_bool]. *)
Inductive value :=
| VNil
| VBool (b : bool)
| VFloat64 (q : Q)
| VString (s : string)
| VMap (m : gmap string value)
| VSlice (l : list value)
| VInt32 (z : Z).

Definition float64_of_Z (z : Z) : value := VFloat64 (inject_Z z).

(** [for each entry: f key value] holds, written as the fold Go's [range]
    performs. *)
Definition map_forallb {A} (f : string → A → bool) (m : gmap string A) : bool :=
  map_fold (λ k x acc, f k x && acc) true m.

(** reflect.DeepEqual on two interface values: same dynamic type, then
    [==] on scalars, length and element-wise on slices, and on maps equal
    length and every key of the first present in the second with a deeply
    equal value. *)
Fixpoint DeepEqual (a b : value) {struct a} : bool :=
  match a, b with
  | VNil, VNil => true
  | VBool x, VBool y => Bool.eqb x y
  | VFloat64 x, VFloat64 y => Qeq_bool x y
  | VString x, VString y => String.eqb x y
  | VInt32 x, VInt32 y => Z.eqb x y
  | VSlice l, VSlice l' =>
      (fix go (l l' : list value) : bool :=
         match l, l' with
         | [], [] => true
         | x :: l, y :: l' => DeepEqual x y && go l l'
         | _, _ => false
         end) l l'
  | VMap m, VMap m' =>
      Nat.eqb (size m) (size m') &&
      map_forallb (λ k x, match m' !! k with
                          | Some y => DeepEqual x y
                          | None => false
                          end) m
  | _, _ => false
  end.

(** reflect.DeepEqual on two manifest maps. *)
Definition DeepEqualMap (m m' : gmap string value) : bool :=
  DeepEqual (VMap m) (VMap m').

(** ** manifest_state_cleanup_merge.go *)

Definition isPrimitiveValue (v : value) : bool :=
  match v with
  | VBool _ | VFloat64 _ | VString _ => true
  | _ => false
  end.

(** The table's entry when there is one, else the zero value of the value's
    own type; [VNil] is Go's [nil] result. *)
Definition getPrimitiveDefaultValue (key : string) (v : value)
    (defaultValues : gmap string value) : value :=
  match defaultValues !! key with
  | Some defValue => defValue
  | None =>
      match v with
      | VBool _ => VBool false
      | VFloat64 _ => float64_of_Z 0
      | VString _ => VString EmptyString
      | _ => VNil
      end
  end.

(** The decision one iteration of cleanupManifestDefaults's loop takes for
    the entry [key ↦ v]: [true] when the entry is deleted. *)
Definition cleanupDeletes (defaultValues : gmap string value)
    (key : string) (v : value) : bool :=
  match v with
  | VNil => true
  | VBool _ | VFloat64 _ | VString _ =>
      match getPrimitiveDefaultValue key v defaultValues with
      | VNil => false
      | defaultValue => DeepEqual v defaultValue
      end
  | VMap mapVal => Nat.eqb (size mapVal) 0
  | VSlice sliceVal => Nat.eqb (length sliceVal) 0
  | VInt32 _ => false
  end.

(** cleanupManifestDefaults: the loop ranges over the entries of the map and
    deletes the current key from the same map. *)
Definition cleanupManifestDefaults (manifestMap defaultValues : gmap string value)
    : gmap string value :=
  map_fold (λ key v acc,
              if cleanupDeletes defaultValues key v then delete key acc else acc)
           manifestMap manifestMap.

(** mergeManifestMaps: ranges over [fromMap] and writes into [toMap]. *)
Definition mergeManifestMaps (fromMap toMap : gmap string value)
    : gmap string value :=
  map_fold (λ key fromValue acc,
              if negb (bool_decide (is_Some (acc !! key))) || isPrimitiveValue fromValue
              then <[key := fromValue]> acc
              else acc)
           toMap fromMap.

(** The default the specification resolves for a primitive value, in the
    specification's words: "look up defaults[key]; if absent, fall back to
    the zero value of the value's own type (false / 0 / empty string)". *)
Definition spec_zeroValue (v : value) : value :=
  match v with
  | VBool _ => VBool false
  | VFloat64 _ => float64_of_Z 0
  | VString _ => VString EmptyString
  | _ => v
  end.

Definition spec_resolvedDefault (defaults : gmap string value) (key : string)
    (v : value) : value :=
  match defaults !! key with
  | Some d => d
  | None => spec_zeroValue v
  end.

(** ** Default tables and server-owned fields *)

Definition auditableFieldsToIgnore : list string :=
  ["createTime"; "updateTime"; "createdBy"; "updatedBy"].

Definition defaultTaskDefValues : gmap string value :=
  list_to_map
    [("backoffScaleFactor", float64_of_Z 1);
     ("rateLimitFrequencyInSeconds", float64_of_Z 1);
     ("responseTimeoutSeconds", float64_of_Z 3600);
     ("retryCount", float64_of_Z 3);
     ("retryDelaySeconds", float64_of_Z 60);
     ("retryLogic", VString "FIXED");
     ("timeoutPolicy", VString "TIME_OUT_WF")].

Definition defaultWorkflowDefValues : gmap string value :=
  list_to_map
    [("schemaVersion", float64_of_Z 2);
     ("timeoutPolicy", VString "ALERT_ONLY");
     ("enforceSchema", VBool true);
     ("restartable", VBool true)].

Definition defaultWorkflowDefTaskValues : gmap string value :=
  list_to_map [("type", VString "SIMPLE")].

(** [for _, f := range auditableFieldsToIgnore { delete(m, f) }] *)
Definition deleteAuditableFields (m : gmap string value) : gmap string value :=
  foldl (λ acc f, delete f acc) m auditableFieldsToIgnore.

(** The body of workflowDefCleanup's loop over the task slice: an element
    that is a map is cleaned in place, any other element is skipped. *)
Definition cleanupTask (t : value) : value :=
  match t with
  | VMap currentTask =>
      VMap (cleanupManifestDefaults currentTask defaultWorkflowDefTaskValues)
  | _ => t
  end.

(** workflowDefCleanup. The task maps are mutated through the slice stored
    under "tasks", so the cleaned tasks are what the manifest holds
    afterwards. *)
Definition workflowDefCleanup (currentManifestMap : gmap string value)
    : gmap string value :=
  let m := cleanupManifestDefaults (deleteAuditableFields currentManifestMap)
                                   defaultWorkflowDefValues in
  match m !! "tasks" with
  | Some (VSlice currentTasksArr) =>
      <["tasks" := VSlice (cleanupTask <$> currentTasksArr)]> m
  | _ => m
  end.

(** The document-level part of workflowDefCleanup. *)
Definition workflowDocCleanup (m : gmap string value) : gmap string value :=
  cleanupManifestDefaults (deleteAuditableFields m) defaultWorkflowDefValues.

(** ** JSON text and Terraform string values *)

(** A JSON text is represented by what [encoding/json] makes of it: not
    parseable, or the decoded document. *)
Inductive JsonText :=
| NotJson
| JsonDoc (v : value).

(** json.Unmarshal into a [map[string]interface{}] variable: an object
    decodes to its map; the literal [null] is accepted without an error and
    leaves the nil map, which reads, ranges and deletes like the empty map;
    every other document and every unparseable text is an error ([None]). *)
Definition unmarshalMap (text : JsonText) : option (gmap string value) :=
  match text with
  | JsonDoc (VMap m) => Some m
  | JsonDoc VNil => Some ∅
  | _ => None
  end.

(** Whether the map json.Unmarshal leaves is the nil map. Two things tell
    the nil map from the empty one: reflect.DeepEqual, and an assignment
    to an entry, which panics on the nil map. *)
Definition isNilMap (text : JsonText) : bool :=
  match text with
  | JsonDoc VNil => true
  | _ => false
  end.

(** A string attribute of the configuration, plan or state. *)
Inductive TfString :=
| TfNull
| TfUnknown
| TfValue (text : JsonText).

(** ValueString: the empty string for null and unknown, which is not JSON. *)
Definition ValueString (s : TfString) : JsonText :=
  match s with
  | TfValue text => text
  | _ => NotJson
  end.

Definition Diag := string.

(** ** manifest_name_validator.go *)

(** manifestNameValidator.ValidateString: the diagnostics added. *)
Definition ValidateString (ConfigValue : TfString) : list Diag :=
  match ConfigValue with
  | TfNull => []
  | _ =>
      match unmarshalMap (ValueString ConfigValue) with
      | None => []
      | Some planMap =>
          match planMap !! "name" with
          | None => ["'name' parameter is missing from manifest"]
          | Some (VString nameStr) =>
              if String.eqb nameStr EmptyString
              then ["'name' parameter must be a a non empty string"]
              else []
          | Some _ => ["'name' parameter must be a a non empty string"]
          end
      end
  end.

(** The claim as the specification states its second half: a diagnostic
    is reported only when the string parses as a JSON object. *)
Definition name_error_only_for_objects : Prop :=
  ∀ ConfigValue, ValidateString ConfigValue ≠ [] →
                 ∃ m, ConfigValue = TfValue (JsonDoc (VMap m)).

(** ** ModifyPlan *)

Inductive PlanDecision :=
| KeepPlan      (* the proposed plan stands: an update is dispatched *)
| UseState.     (* resp.Plan.Set(state): no effective change *)

(** The common frame of TaskDefResource.ModifyPlan and
    WorkflowDefResource.ModifyPlan; [None] is a null raw plan or state,
    [cleanup] the clean-up pass of the resource. *)
Definition modifyPlanWith (cleanup : gmap string value → gmap string value)
    (plan state : option TfString) : PlanDecision :=
  match plan, state with
  | Some (TfValue planText), Some (TfValue stateText) =>
      match unmarshalMap planText, unmarshalMap stateText with
      | Some planDef, Some stateDef =>
          if Bool.eqb (isNilMap planText) (isNilMap stateText) &&
             DeepEqualMap (cleanup planDef) (cleanup stateDef)
          then UseState else KeepPlan
      | _, _ => KeepPlan
      end
  | _, _ => KeepPlan
  end.

Definition TaskDef_ModifyPlan : option TfString → option TfString → PlanDecision :=
  modifyPlanWith (λ m, cleanupManifestDefaults m defaultTaskDefValues).

Definition WorkflowDef_ModifyPlan : option TfString → option TfString → PlanDecision :=
  modifyPlanWith workflowDefCleanup.

(** ** int32 and version extraction *)

Definition MaxInt32 : Z := 2147483647.
Definition MinInt32 : Z := -2147483648.

(** Go's int32 addition wraps around. *)
Definition int32_wrap (z : Z) : Z := (z + 2147483648) mod 4294967296 - 2147483648.
Definition int32_add (a b : Z) : Z := int32_wrap (a + b).

(** [int32(f)] truncates toward zero. For a float outside the int32 range
    Go leaves the result to the implementation; the amd64 conversion yields
    the smallest int32, which is what is written here. The properties below
    use of that case only that the result is an int32. *)
Definition int32_of_float64 (f : Q) : Z :=
  let z := Z.quot (Qnum f) (Z.pos (Qden f)) in
  if (MinInt32 <=? z) && (z <=? MaxInt32) then z else MinInt32.

Inductive result (A : Type) :=
| Ok (a : A)
| Err (e : string).
Arguments Ok {A} a.
Arguments Err {A} e.

(** [(version, true, nil)] is [Ok (Some version)], [(0, false, nil)] is
    [Ok None]. *)
Definition getWorkflowVersionOptionalFromManifest (manifestMap : gmap string value)
    : result (option Z) :=
  match manifestMap !! "version" with
  | None => Ok None
  | Some (VFloat64 versionFloat64) =>
      if negb (Qeq_bool versionFloat64 (inject_Z (Qfloor versionFloat64)))
      then Err "'version' parameter must be int"
      else
        let versionInt := int32_of_float64 versionFloat64 in
        if versionInt <? 1
        then Err "'version' is smaller than 1"
        else Ok (Some versionInt)
  | Some _ => Err "'version' parameter must be int"
  end.

Definition getWorkflowVersionFromManifest (manifestMap : gmap string value)
    : result Z :=
  match getWorkflowVersionOptionalFromManifest manifestMap with
  | Err e => Err e
  | Ok None => Err "version not found"
  | Ok (Some version) => Ok version
  end.

(** getWorkflowNameFromManifest and getTaskTypeFromManifest have the same
    body; the error is the detail of the "Invalid Manifest" diagnostic. *)
Definition getWorkflowNameFromManifest (manifestMap : gmap string value)
    : result string :=
  match manifestMap !! "name" with
  | None => Err "'name' parameter is missing from manifest"
  | Some (VString taskType) =>
      if String.eqb taskType EmptyString
      then Err "'name' parameter must be string"
      else Ok taskType
  | Some _ => Err "'name' parameter must be string"
  end.

Definition getTaskTypeFromManifest := getWorkflowNameFromManifest.

(** ** The HTTP collaborator *)

Inductive Method := MethodGet | MethodPost | MethodPut | MethodDelete.

Record Request := MkRequest {
  req_method : Method;
  req_path : string;
  req_body : option value      (* the marshalled request body, if any *)
}.

(** What the resources look at in a response: the status code, the bytes
    io.ReadAll returns for the body, and whether io.ReadAll reports an
    error next to them. *)
Record Response := MkResponse {
  StatusCode : Z;
  Body : JsonText;
  ReadAllErr : bool
}.

Definition StatusOK : Z := 200.
Definition StatusNotFound : Z := 404.
Definition StatusInternalServerError : Z := 500.

(** fmt.Sprintf("metadata/workflow/%s", name) and
    fmt.Sprintf("metadata/workflow/%s/%d", name, version) *)
Definition workflowPath (name : string) : string := "metadata/workflow/" +:+ name.
Definition workflowVersionPath (name : string) (version : Z) : string :=
  "metadata/workflow/" +:+ name +:+ "/" +:+ pretty version.
Definition taskdefPath (taskType : string) : string := "metadata/taskdefs/" +:+ taskType.

(** What a resource operation leaves behind. *)
Inductive Outcome (A : Type) :=
| Failed (ds : list Diag)   (* diagnostics hold an error, state not written *)
| StateSet (a : A)          (* resp.State.Set *)
| StateRemoved              (* resp.State.RemoveResource *)
| Panicked                  (* nil pointer dereference *)
| OutOfFuel.                (* the loop has not finished within the fuel *)
Arguments Failed {A} ds.
Arguments StateSet {A} a.
Arguments StateRemoved {A}.
Arguments Panicked {A}.
Arguments OutOfFuel {A}.

Section Resources.
(** The remote server: [send req s] is what conductorHttpClient.do returns
    for the request, [None] for a transport error, and the server's next
    state. *)
Context {Server : Type}.
Variable send : Request → Server → option Response * Server.

(** The client with the server behind it and the requests issued so far,
    oldest first. *)
Record Client := MkClient {
  server : Server;
  sent : list Request
}.

Definition client_do (method : Method) (path : string) (body : option value)
    (c : Client) : option Response * Client :=
  let req := MkRequest method path body in
  let '(response, s) := send req (server c) in
  (response, MkClient s (sent c ++ [req])).

(** *** workflowdef_resource.go: version decisions *)

(** checkExistingVersionBeforeCreate returns [(createVersion, shouldCreate)]
    and the diagnostics it added; the plan map is an in-out argument, the
    auto-version branch cleans it in place. *)
Definition checkExistingVersionBeforeCreate (planMap : gmap string value)
    (c : Client) : (Z * bool) * list Diag * gmap string value * Client :=
  match getWorkflowNameFromManifest planMap with
  | Err _ => ((0, false), ["Invalid Manifest"], planMap, c)
  | Ok name =>
    match getWorkflowVersionOptionalFromManifest planMap with
    | Err e => ((0, false), ["Manifest get version err: " +:+ e], planMap, c)
    | Ok planVersion =>
      let '(response, c) := client_do MethodGet (workflowPath name) None c in
      match response with
      | None => ((0, false), ["Failed to get Manifest"], planMap, c)
      | Some response =>
        if StatusCode response =? StatusNotFound then
          match planVersion with
          | Some version => ((version, true), [], planMap, c)
          | None => ((1, true), [], planMap, c)
          end
        else if ReadAllErr response then
          ((0, false), ["Error reading response body"], planMap, c)
        else if negb (StatusCode response =? StatusOK) then
          ((0, false), ["HTTP Get Error"], planMap, c)
        else
          match unmarshalMap (Body response) with
          | None => ((0, false), ["Current Manifest JSON Parse error"], planMap, c)
          | Some currentManifestMap =>
            match getWorkflowVersionFromManifest currentManifestMap with
            | Err _ => ((0, false), ["Invalid Current Manifest"], planMap, c)
            | Ok currentVersion =>
              match planVersion with
              | Some version =>
                if version <? currentVersion then
                  ((0, false),
                   ["Found an existing workflow definition with a larger version"],
                   planMap, c)
                else ((version, true), [], planMap, c)
              | None =>
                (* Auto Version *)
                let planMap := workflowDefCleanup planMap in
                let currentManifestMap :=
                  workflowDefCleanup (delete "version" currentManifestMap) in
                if DeepEqualMap planMap currentManifestMap then
                  ((currentVersion, false), [], planMap, c)
                else ((int32_add currentVersion 1, true), [], planMap, c)
              end
            end
          end
      end
    end
  end.

(** verifyValidVersionForUpdate: the diagnostics added, or [None] when
    the function panics. After a transport error the source adds a
    diagnostic and goes on to [defer response.Body.Close()] with a nil
    response. After a failed io.ReadAll it adds a diagnostic and goes on
    as well. *)
Definition verifyValidVersionForUpdate (planMap : gmap string value)
    (planVersion : Z) (c : Client) : option (list Diag) * Client :=
  match getWorkflowNameFromManifest planMap with
  | Err _ => (Some ["Invalid Manifest"], c)
  | Ok name =>
    let '(response, c) := client_do MethodGet (workflowPath name) None c in
    match response with
    | None => (None, c)
    | Some response =>
      if StatusCode response =? StatusNotFound then (Some [], c)
      else
        let ds := if ReadAllErr response
                  then ["Error reading response body"] else [] in
        if negb (StatusCode response =? StatusOK) then
          (Some (ds ++ ["HTTP Get Error"]), c)
        else
          match unmarshalMap (Body response) with
          | None => (Some (ds ++ ["Current Manifest JSON Parse error"]), c)
          | Some currentManifestMap =>
            match getWorkflowVersionFromManifest currentManifestMap with
            | Err _ => (Some (ds ++ ["Invalid Current Manifest"]), c)
            | Ok currentVersion =>
              if planVersion <? currentVersion then
                (Some (ds ++ ["Found an existing workflow definition with a larger version"]), c)
              else (Some ds, c)
            end
          end
    end
  end.

(** getLatestVersion: [Ok (Some v)] is [(v, true)], [Ok None] is
    [(0, false)] without a diagnostic, [Err d] is [(0, false)] with the
    diagnostic [d] added. *)
Definition getLatestVersion (name : string) (c : Client)
    : result (option Z) * Client :=
  let '(response, c) := client_do MethodGet (workflowPath name) None c in
  match response with
  | None => (Err "Failed to get Manifest", c)
  | Some response =>
    if StatusCode response =? StatusNotFound then (Ok None, c)
    else if ReadAllErr response then (Err "Error reading response body", c)
    else if negb (StatusCode response =? StatusOK) then (Err "HTTP Get Error", c)
    else
      match unmarshalMap (Body response) with
      | None => (Err "Current Manifest JSON Parse error", c)
      | Some currentManifestMap =>
        match getWorkflowVersionFromManifest currentManifestMap with
        | Err _ => (Err "Invalid Current Manifest", c)
        | Ok currentVersion => (Ok (Some currentVersion), c)
        end
      end
  end.

(** *** WorkflowDefResource *)

(** Create. [planManifest] is the plan's manifest attribute; the outcome
    [StateSet v] is the tracked version written to the state. *)
Definition WorkflowDef_Create (planManifest : JsonText) (c : Client)
    : Outcome Z * Client :=
  match unmarshalMap planManifest with
  | None => (Failed ["JSON Unmarshal Error"], c)
  | Some manifestMap =>
    let '(createVersion, shoudCreate, ds, manifestMap, c) :=
      checkExistingVersionBeforeCreate manifestMap c in
    match ds with
    | _ :: _ => (Failed ds, c)
    | [] =>
      if shoudCreate then
        let manifestMap := deleteAuditableFields manifestMap in
        let manifestMap := <["version" := VInt32 createVersion]> manifestMap in
        let '(response, c) :=
          client_do MethodPut "metadata/workflow"
                    (Some (VSlice [VMap manifestMap])) c in
        match response with
        | None => (Failed ["Client Error"], c)
        | Some response =>
          if negb (StatusCode response =? StatusOK) then (Failed ["HTTP Error"], c)
          else if ReadAllErr response then
            (Failed ["Status was OK but failed to Read Response Body"], c)
          else (StateSet createVersion, c)
        end
      else (StateSet createVersion, c)
    end
  end.

(** The loop of Delete, with [currentVersion] the version deleted in the
    previous iteration (0 before the first). *)
Fixpoint WorkflowDef_Delete_loop (fuel : nat) (name : string)
    (currentVersion : Z) (c : Client) : Outcome unit * Client :=
  match fuel with
  | O => (OutOfFuel, c)
  | S fuel =>
    let '(latest, c) := getLatestVersion name c in
    match latest with
    | Err d => (Failed [d], c)
    | Ok None => (StateSet (), c)
    | Ok (Some nextVersion) =>
      if (0 <? currentVersion) && (currentVersion =? nextVersion) then
        (Failed ["Delete failed, try to delete the same version twice"], c)
      else
        let currentVersion := nextVersion in
        let '(response, c) :=
          client_do MethodDelete (workflowVersionPath name currentVersion) None c in
        match response with
        | None => (Failed ["Delete Error"], c)
        | Some response =>
          if negb (StatusCode response =? StatusOK) then (Failed ["HTTP Error"], c)
          else WorkflowDef_Delete_loop fuel name currentVersion c
        end
    end
  end.

Definition WorkflowDef_Delete (fuel : nat) (stateManifest : JsonText)
    (c : Client) : Outcome unit * Client :=
  match unmarshalMap stateManifest with
  | None => (Failed ["JSON Unmarshal Error"], c)
  | Some manifestMap =>
    match getWorkflowNameFromManifest manifestMap with
    | Err _ => (Failed ["Invalid Manifest"], c)
    | Ok name => WorkflowDef_Delete_loop fuel name 0 c
    end
  end.

(** Update. [stateVersion] is the "version" attribute of the prior state
    as [ValueInt32] reads it. *)
Definition WorkflowDef_Update (planManifest : JsonText) (stateVersion : Z)
    (c : Client) : Outcome Z * Client :=
  match unmarshalMap planManifest with
  | None => (Failed ["JSON Unmarshal Error"], c)
  | Some manifestMap =>
    let manifestMap := deleteAuditableFields manifestMap in
    match getWorkflowVersionOptionalFromManifest manifestMap with
    | Err _ => (Failed ["Failed to get version from manifest plan"], c)
    | Ok planVersionOpt =>
      let put (newVersion : Z) (manifestMap : gmap string value) (c : Client) :=
        let '(response, c) :=
          client_do MethodPut "metadata/workflow"
                    (Some (VSlice [VMap manifestMap])) c in
        match response with
        | None => (Failed ["Client Error"], c)
        | Some response =>
          if StatusCode response =? StatusNotFound then (StateRemoved, c)
          else if negb (StatusCode response =? StatusOK) then
            if ReadAllErr response
            then (Failed ["Failed to Read Response Body"], c)
            else (Failed ["HTTP Error"], c)
          else (StateSet newVersion, c)
        end in
      match planVersionOpt with
      | Some planVersion =>
        let '(verdict, c) := verifyValidVersionForUpdate manifestMap planVersion c in
        match verdict with
        | None => (Panicked, c)
        | Some (d :: ds) => (Failed (d :: ds), c)
        | Some [] => put planVersion manifestMap c
        end
      | None =>
        let newVersion := int32_add stateVersion 1 in
        if isNilMap planManifest then (Panicked, c)
        else put newVersion (<["version" := VInt32 newVersion]> manifestMap) c
      end
    end
  end.

(** *** TaskDefResource *)

Definition TaskDef_Delete (stateManifest : JsonText) (c : Client)
    : Outcome unit * Client :=
  match unmarshalMap stateManifest with
  | None => (Failed ["JSON Unmarshal Error"], c)
  | Some manifestMap =>
    match getTaskTypeFromManifest manifestMap with
    | Err _ => (Failed ["Invalid Manifest"], c)
    | Ok taskType =>
      let path := taskdefPath taskType in
      let '(response, c) := client_do MethodDelete path None c in
      match response with
      | None => (Failed ["Delete Error"], c)
      | Some response =>
        if negb (StatusCode response =? StatusOK) then
          let '(alreadyDeleted, c) :=
            if StatusCode response =? StatusInternalServerError then
              (* check if exists *)
              let '(internalGetResponse, c) := client_do MethodGet path None c in
              match internalGetResponse with
              | Some r => (StatusCode r =? StatusNotFound, c)
              | None => (false, c)
              end
            else (false, c) in
          if alreadyDeleted then (StateSet (), c) else (Failed ["HTTP Error"], c)
        else (StateSet (), c)
      end
    end
  end.

End Resources.

Arguments Client : clear implicits.
Arguments MkClient {Server} server sent.

(** ** Server models *)

(** A server that answers with a prepared list of responses, one per
    request and in order; it reports a transport error once the list is
    used up. *)
Definition Script := list (option Response).

Definition scripted_send (req : Request) (s : Script) : option Response * Script :=
  match s with
  | [] => (None, [])
  | r :: s => (r, s)
  end.

Definition okResponse (doc : value) : option Response :=
  Some (MkResponse StatusOK (JsonDoc doc) false).
Definition statusResponse (status : Z) : option Response :=
  Some (MkResponse status NotJson false).

(** A server that holds the versions of one workflow name, latest first.
    GET on the name answers 200 with the latest version's document, 404
    when no version is left; DELETE on a version path retires that version
    and answers 200, 404 when there is no such version. *)
Record WorkflowStore := MkWorkflowStore {
  store_name : string;
  store_versions : list Z
}.

Fixpoint retireVersion (name path : string) (versions : list Z) : option (list Z) :=
  match versions with
  | [] => None
  | v :: versions =>
      if String.eqb path (workflowVersionPath name v) then Some versions
      else cons v <$> retireVersion name path versions
  end.

Definition workflowDocument (name : string) (version : Z) : value :=
  VMap (<["name" := VString name]> (<["version" := float64_of_Z version]> ∅)).

Definition store_send (req : Request) (s : WorkflowStore)
    : option Response * WorkflowStore :=
  match req_method req with
  | MethodGet =>
      if String.eqb (req_path req) (workflowPath (store_name s)) then
        match store_versions s with
        | [] => (statusResponse StatusNotFound, s)
        | v :: _ => (okResponse (workflowDocument (store_name s) v), s)
        end
      else (statusResponse StatusNotFound, s)
  | MethodDelete =>
      match retireVersion (store_name s) (req_path req) (store_versions s) with
      | Some versions => (statusResponse StatusOK, MkWorkflowStore (store_name s) versions)
      | None => (statusResponse StatusNotFound, s)
      end
  | _ => (statusResponse StatusOK, s)
  end.

(** The versions [n, n-1, ..., 1]. *)
Fixpoint versionsDownFrom (n : nat) : list Z :=
  match n with
  | O => []
  | S k => Z.of_nat (S k) :: versionsDownFrom k
  end.

(** The DELETE requests among the requests issued. *)
Definition isDelete (req : Request) : bool :=
  match req_method req with MethodDelete => true | _ => false end.
Definition isPut (req : Request) : bool :=
  match req_method req with MethodPut => true | _ => false end.
Definition deletesOf (reqs : list Request) : list Request := List.filter isDelete reqs.
Definition writesOf (reqs : list Request) : list Request := List.filter isPut reqs.

(** ** Requests and responses of the workflow resource *)

Definition getRequest (name : string) : Request :=
  MkRequest MethodGet (workflowPath name) None.
Definition deleteRequest (name : string) (version : Z) : Request :=
  MkRequest MethodDelete (workflowVersionPath name version) None.
(** The PUT of one manifest: the body is the one-element array. *)
Definition putRequest (manifestMap : gmap string value) : Request :=
  MkRequest MethodPut "metadata/workflow" (Some (VSlice [VMap manifestMap])).

(** The manifest a response carries for the resource: status 200, a body
    that could be read and that decodes into a map. *)
Definition serverManifest (r : Response) : option (gmap string value) :=
  if (StatusCode r =? StatusOK) && negb (ReadAllErr r)
  then unmarshalMap (Body r) else None.

(** The server's current version for the name, as such a response states it. *)
Definition serverVersion (r : Response) : option Z :=
  match serverManifest r with
  | Some currentManifestMap =>
      match getWorkflowVersionFromManifest currentManifestMap with
      | Ok v => Some v
      | Err _ => None
      end
  | None => None
  end.

(** What Create and Update make of the response to their PUT. *)
Definition acceptedWrite (r : option Response) : bool :=
  match r with
  | Some r => (StatusCode r =? StatusOK) && negb (ReadAllErr r)
  | None => false
  end.

Definition isFailed {A} (o : Outcome A) : bool :=
  match o with Failed _ => true | _ => false end.

(** What Update makes of the response to its PUT: the resource is removed
    from the state on 404, the new version is tracked on 200, and the
    operation fails otherwise. *)
Definition updateOutcome (newVersion : Z) (res : Outcome Z) (w : option Response) : Prop :=
  match w with
  | Some r2 =>
      if StatusCode r2 =? StatusNotFound then res = StateRemoved
      else if StatusCode r2 =? StatusOK then res = StateSet newVersion
      else isFailed res = true
  | None => isFailed res = true
  end.

(** The requests Delete issues for a name whose versions are [n .. 1]:
    per version the GET for the latest version and the DELETE of it, and
    the last GET, which finds nothing. *)
Definition deleteTrace (name : string) (n : nat) : list Request :=
  flat_map (λ v, [getRequest name; deleteRequest name v]) (versionsDownFrom n)
  ++ [getRequest name].

(** The requests of the rounds of the Delete loop that delete [versions],
    in this order: per version the GET for the latest version and the
    DELETE of it. *)
Definition roundsTrace (name : string) (versions : list Z) : list Request :=
  flat_map (λ v, [getRequest name; deleteRequest name v]) versions.

(** Successive rounds of the Delete loop (lines 323-371) against a server:
    [deleteRounds send name currentVersion s versions lastVersion s'] holds
    when the loop, entered with [currentVersion] and the server in state
    [s], goes through one round per element of [versions]: the GET reports
    the element as the latest version, it is not the version deleted in the
    round before, and its DELETE is answered with 200. [lastVersion] and
    [s'] are the loop variable and the server state after these rounds. *)
Inductive deleteRounds {Server : Type}
    (send : Request → Server → option Response * Server) (name : string)
    : Z → Server → list Z → Z → Server → Prop :=
| deleteRounds_nil currentVersion s :
    deleteRounds send name currentVersion s [] currentVersion s
| deleteRounds_cons currentVersion s nextVersion r1 s1 r2 s2 versions lastVersion s' :
    send (getRequest name) s = (Some r1, s1) →
    serverVersion r1 = Some nextVersion →
    currentVersion ≠ nextVersion →
    send (deleteRequest name nextVersion) s1 = (Some r2, s2) →
    StatusCode r2 = StatusOK →
    deleteRounds send name nextVersion s2 versions lastVersion s' →
    deleteRounds send name currentVersion s (nextVersion :: versions) lastVersion s'.

(** ** Claims of the specification that do not hold as stated *)

(** Manual-mode create, as the specification states it: the drift check of
    auto mode applies, so that a proposed manifest that equals the server's
    after the clean-up (version removed from both sides) is not written. *)
Definition manual_create_skips_equal_write : Prop :=
  ∀ (Server : Type) (send : Request → Server → option Response * Server)
    (c : Client Server) (planMap cur : gmap string value) name version r s1,
    getWorkflowNameFromManifest planMap = Ok name →
    getWorkflowVersionOptionalFromManifest planMap = Ok (Some version) →
    send (getRequest name) (server c) = (Some r, s1) →
    serverManifest r = Some cur →
    DeepEqualMap (workflowDefCleanup (delete "version" planMap))
                 (workflowDefCleanup (delete "version" cur)) = true →
    writesOf (sent (snd (WorkflowDef_Create send (JsonDoc (VMap planMap)) c)))
    = writesOf (sent c).

(** The workflow version delete, as the specification states it: a 500 on
    the DELETE is followed by a GET, and the delete succeeds when that GET
    finds nothing. *)
Definition workflow_delete_disambiguates_500 : Prop :=
  ∀ (Server : Type) (send : Request → Server → option Response * Server)
    (c : Client Server) (manifestMap : gmap string value) name v r1 s1 s2 fuel,
    getWorkflowNameFromManifest manifestMap = Ok name →
    send (getRequest name) (server c) = (Some r1, s1) →
    serverVersion r1 = Some v →
    send (deleteRequest name v) s1 = (statusResponse StatusInternalServerError, s2) →
    (∀ req, req_method req = MethodGet →
            send req s2 = (statusResponse StatusNotFound, s2)) →
    fst (WorkflowDef_Delete send (S (S fuel)) (JsonDoc (VMap manifestMap)) c)
    = StateSet ().

(** A server that answers every GET with 404 and every other request
    with 500. *)
Definition gone_send (req : Request) (s : unit) : option Response * unit :=
  match req_method req with
  | MethodGet => (statusResponse StatusNotFound, s)
  | _ => (statusResponse StatusInternalServerError, s)
  end.

(** A server that answers with the script first and like [gone_send] once
    the script is used up. *)
Definition scripted_then_gone_send (req : Request) (s : Script)
    : option Response * Script :=
  match s with
  | [] => (fst (gone_send req ()), [])
  | r :: s => (r, s)
  end.

(** ** A size measure for induction over nested values *)

Fixpoint value_size (v : value) : nat :=
  match v with
  | VMap m => S (map_fold (λ _ x acc, (value_size x + acc)%nat) O m)
  | VSlice l => S (foldr (λ x acc, (value_size x + acc)%nat) O l)
  | _ => 1%nat
  end.

(** ** Reading back: clean-up and merge *)

Definition taskDefCleanupAndMerge (currentManifestMap stateManifestMap : gmap string value)
    : gmap string value :=
  mergeManifestMaps (cleanupManifestDefaults currentManifestMap defaultTaskDefValues)
                    stateManifestMap.

(** The loop of workflowDefMerge over the two task slices: it stops at the
    shorter one, skips a pair in which either side is not a map, and
    merges the current task into the state task otherwise. The state tasks
    are mutated through the slice. *)
Fixpoint mergeTasks (currentTasksArr stateTasksArr : list value) : list value :=
  match currentTasksArr, stateTasksArr with
  | currentTask :: currentTasksArr, stateTask :: stateTasksArr =>
      match currentTask, stateTask with
      | VMap currentTask, VMap stateTask =>
          VMap (mergeManifestMaps currentTask stateTask)
      | _, _ => stateTask
      end :: mergeTasks currentTasksArr stateTasksArr
  | _, _ => stateTasksArr
  end.

(** workflowDefMerge: the state map after the merge. *)
Definition workflowDefMerge (currentManifestMap stateManifestMap : gmap string value)
    : gmap string value :=
  let stateManifestMap := mergeManifestMaps currentManifestMap stateManifestMap in
  match currentManifestMap !! "tasks" with
  | Some (VSlice currentTasksArr) =>
      match stateManifestMap !! "tasks" with
      | Some (VSlice stateTasksArr) =>
          <["tasks" := VSlice (mergeTasks currentTasksArr stateTasksArr)]> stateManifestMap
      | _ => stateManifestMap
      end
  | _ => stateManifestMap
  end.

Definition workflowDefCleanupAndMerge (currentManifestMap stateManifestMap : gmap string value)
    : gmap string value :=
  workflowDefMerge (workflowDefCleanup currentManifestMap) stateManifestMap.

(** The loop of Read over auditableFieldsToIgnore: the field is deleted
    from the current manifest and, when the state has it, set to the
    state's value. *)
Definition pinAuditableFields (currentManifestMap stateManifestMap : gmap string value)
    : gmap string value :=
  foldl (λ acc f, match stateManifestMap !! f with
                  | Some cValue => <[f := cValue]> (delete f acc)
                  | None => delete f acc
                  end)
        currentManifestMap auditableFieldsToIgnore.

(** Whether that loop assigns to an entry of the current manifest. *)
Definition stateHasAuditableField (stateManifestMap : gmap string value) : bool :=
  existsb (λ f, bool_decide (is_Some (stateManifestMap !! f))) auditableFieldsToIgnore.

(** json.Marshal of a manifest map: the nil map is marshalled as null. *)
Definition marshalMap (text : JsonText) (m : gmap string value) : value :=
  if isNilMap text then VNil else VMap m.

(** ImportState: the manifest attribute is the marshalled map with the
    one key "name"; for an ID that is valid UTF-8 the text decodes to that
    map again. *)
Definition ImportState (ID : string) : JsonText :=
  JsonDoc (VMap {["name" := VString ID]}).

Section ReadAndWrite.
Context {Server : Type}.
Variable send : Request → Server → option Response * Server.

(** TaskDefResource.Read: the manifest written to the state. *)
Definition TaskDef_Read (stateManifest : JsonText) (c : Client Server)
    : Outcome (gmap string value) * Client Server :=
  match unmarshalMap stateManifest with
  | None => (Failed ["JSON Unmarshal Error"], c)
  | Some stateManifestMap =>
    match getTaskTypeFromManifest stateManifestMap with
    | Err _ => (Failed ["Invalid Manifest"], c)
    | Ok stateTaskType =>
      let path := taskdefPath stateTaskType in
      let '(response, c) := client_do send MethodGet path None c in
      match response with
      | None => (Failed ["Client Error"], c)
      | Some response =>
        if StatusCode response =? StatusNotFound then (StateRemoved, c)
        else if negb (StatusCode response =? StatusOK) then
          (Failed ["HTTP Error path: " +:+ path], c)
        else if ReadAllErr response then (Failed ["Error reading response body"], c)
        else
          match unmarshalMap (Body response) with
          | None => (Failed ["Manifest JSON Parse error"], c)
          | Some currentManifestMap =>
            if isNilMap (Body response) && stateHasAuditableField stateManifestMap
            then (Panicked, c)
            else
              let currentManifestMap :=
                pinAuditableFields currentManifestMap stateManifestMap in
              (StateSet (taskDefCleanupAndMerge currentManifestMap stateManifestMap), c)
          end
      end
    end
  end.

(** WorkflowDefResource.Read: the manifest and the version written to the
    state. *)
Definition WorkflowDef_Read (stateManifest : JsonText) (c : Client Server)
    : Outcome (gmap string value * Z) * Client Server :=
  match unmarshalMap stateManifest with
  | None => (Failed ["JSON Unmarshal Error"], c)
  | Some stateManifestMap =>
    match getWorkflowNameFromManifest stateManifestMap with
    | Err _ => (Failed ["Invalid Manifest"], c)
    | Ok name =>
      match getWorkflowVersionOptionalFromManifest stateManifestMap with
      | Err _ => (Failed ["Failed to get version from manifest plan"], c)
      | Ok stateVersion =>
        let '(response, c) := client_do send MethodGet (workflowPath name) None c in
        match response with
        | None => (Failed ["Client Error"], c)
        | Some response =>
          if StatusCode response =? StatusNotFound then (StateRemoved, c)
          else if negb (StatusCode response =? StatusOK) then
            (Failed ["HTTP Get Error"], c)
          else if ReadAllErr response then (Failed ["Error reading response body"], c)
          else
            match unmarshalMap (Body response) with
            | None => (Failed ["Manifest JSON Parse error"], c)
            | Some currentManifestMap =>
              match getWorkflowVersionFromManifest currentManifestMap with
              | Err _ =>
                (Failed ["Unexpected Error. failed ot extract version from current manifest"], c)
              | Ok version =>
                let currentManifestMap :=
                  pinAuditableFields currentManifestMap stateManifestMap in
                let currentManifestMap :=
                  match stateVersion with
                  | Some _ => currentManifestMap
                  | None => delete "version" currentManifestMap
                  end in
                (StateSet (workflowDefCleanupAndMerge currentManifestMap stateManifestMap,
                           version), c)
              end
            end
        end
      end
    end
  end.

(** TaskDefResource.Create: the body of the POST is the one-element array. *)
Definition TaskDef_Create (planManifest : JsonText) (c : Client Server)
    : Outcome unit * Client Server :=
  match unmarshalMap planManifest with
  | None => (Failed ["JSON Unmarshal Error"], c)
  | Some manifestMap =>
    let manifestMap := deleteAuditableFields manifestMap in
    let '(response, c) :=
      client_do send MethodPost "metadata/taskdefs"
                (Some (VSlice [marshalMap planManifest manifestMap])) c in
    match response with
    | None => (Failed ["Client Error"], c)
    | Some response =>
      if negb (StatusCode response =? StatusOK) then (Failed ["HTTP Error"], c)
      else if ReadAllErr response then
        (Failed ["Status was OK but failed to Read Response Body"], c)
      else (StateSet (), c)
    end
  end.

(** TaskDefResource.Update: the body of the PUT is the manifest itself. *)
Definition TaskDef_Update (planManifest : JsonText) (c : Client Server)
    : Outcome unit * Client Server :=
  match unmarshalMap planManifest with
  | None => (Failed ["JSON Unmarshal Error"], c)
  | Some manifestMap =>
    let manifestMap := deleteAuditableFields manifestMap in
    let '(response, c) :=
      client_do send MethodPut "metadata/taskdefs"
                (Some (marshalMap planManifest manifestMap)) c in
    match response with
    | None => (Failed ["Client Error"], c)
    | Some response =>
      if StatusCode response =? StatusNotFound then (StateRemoved, c)
      else if negb (StatusCode response =? StatusOK) then
        if ReadAllErr response
        then (Failed ["Failed to Read Response Body"], c)
        else (Failed ["HTTP Error"], c)
      else (StateSet (), c)
    end
  end.

End ReadAndWrite.

(** ** conductor_httpclient.go *)

(** strings.HasSuffix and strings.TrimSuffix. *)
Definition HasSuffix (s suffix : string) : bool :=
  (String.length suffix <=? String.length s)%nat &&
  String.eqb (String.substring (String.length s - String.length suffix)
                        (String.length suffix) s) suffix.

Definition TrimSuffix (s suffix : string) : string :=
  if HasSuffix s suffix
  then String.substring 0 (String.length s - String.length suffix) s
  else s.

(** The endpoint createConductorHttpClient stores, and the URL
    createRequest builds from it: fmt.Sprintf("%s/%s", endpoint, path). *)
Definition clientEndpoint (Endpoint : string) : string := TrimSuffix Endpoint "/".
Definition requestURL (endpoint path : string) : string := endpoint +:+ "/" +:+ path.

(** The manifest a write carries, when the request body is a manifest or
    the one-element array of one. *)
Definition writtenManifest (req : Request) : option (gmap string value) :=
  match req_body req with
  | Some (VSlice [VMap m]) => Some m
  | Some (VMap m) => Some m
  | _ => None
  end.

Definition isGet (req : Request) : bool :=
  match req_method req with MethodGet => true | _ => false end.

(** A request that carries no server-owned field: if its body is a
    manifest, the manifest has none of createTime, updateTime, createdBy
    and updatedBy. *)
Definition carriesNoAuditableField (req : Request) : Prop :=
  ∀ m f, writtenManifest req = Some m → f ∈ auditableFieldsToIgnore → m !! f = None.

(** The requests among [reqs] that are not GETs. *)
Definition nonGets (reqs : list Request) : list Request :=
  List.filter (λ req, negb (isGet req)) reqs.

(** What is shown of the requests an operation adds to those issued
    before: none carries a server-owned field and at most one is not a GET. *)
Definition cleanWrites (before after : list Request) : Prop :=
  ∃ extra, after = before ++ extra ∧
           Forall carriesNoAuditableField extra ∧
           (length (nonGets extra) ≤ 1)%nat.

(** * Properties *)

(** ** Folds over maps *)

Lemma map_forallb_true {A} (f : string → A → bool) (m : gmap string A) :
  (∀ k x, m !! k = Some x → f k x = true) → map_forallb f m = true.
Proof.
  unfold map_forallb.
  apply (map_fold_weak_ind
           (λ r m', (∀ k x, m' !! k = Some x → f k x = true) → r = true)).
  - done.
  - intros i x m' r Hi IH Hall.
    rewrite (Hall i x) by apply lookup_insert_eq. simpl.
    apply IH. intros k y Hk. apply Hall.
    rewrite lookup_insert_ne; [done|]. intros ->. congruence.
Qed.

Lemma value_size_lookup (m : gmap string value) k x :
  m !! k = Some x → (value_size x < value_size (VMap m))%nat.
Proof.
  simpl. intros Hk. apply Nat.lt_succ_r. revert k x Hk.
  apply (map_fold_weak_ind
           (λ r m', ∀ k x, m' !! k = Some x → (value_size x ≤ r)%nat)).
  - intros k x. by rewrite lookup_empty.
  - intros i y m' r Hi IH k x. rewrite lookup_insert.
    case_decide as Hik.
    + intros [= ->]. lia.
    + intros Hk. specialize (IH k x Hk). lia.
Qed.

Lemma value_size_elem (l : list value) x :
  x ∈ l → (value_size x < value_size (VSlice l))%nat.
Proof.
  simpl. intros Hx. apply Nat.lt_succ_r.
  induction Hx as [x l|x y l Hx IH]; simpl; lia.
Qed.

(** Induction over values with the entries of a map and the elements of a
    slice as sub-values. *)
Lemma value_nested_ind (P : value → Prop) :
  P VNil →
  (∀ b, P (VBool b)) →
  (∀ q, P (VFloat64 q)) →
  (∀ s, P (VString s)) →
  (∀ m, (∀ k x, m !! k = Some x → P x) → P (VMap m)) →
  (∀ l, Forall P l → P (VSlice l)) →
  (∀ z, P (VInt32 z)) →
  ∀ v, P v.
Proof.
  intros HNil HBool HFloat HString HMap HSlice HInt v.
  remember (value_size v) as n eqn:Hn.
  revert v Hn. induction n as [n IH] using lt_wf_ind. intros v ->.
  destruct v as [|b|q|s|m|l|z]; auto.
  - apply HMap. intros k x Hk.
    apply (IH (value_size x)); [by eapply value_size_lookup|done].
  - apply HSlice. apply Forall_forall. intros x Hx.
    apply (IH (value_size x)); [by apply value_size_elem|done].
Qed.

(** ** reflect.DeepEqual *)

Lemma DeepEqual_slice_refl (l : list value) :
  Forall (λ v, DeepEqual v v = true) l → DeepEqual (VSlice l) (VSlice l) = true.
Proof.
  simpl. induction 1 as [|x l Hx _ IH]; [done|].
  rewrite Hx. simpl. exact IH.
Qed.

Lemma DeepEqual_refl (v : value) : DeepEqual v v = true.
Proof.
  induction v as [|b|q|s|m IH|l IH|z] using value_nested_ind.
  - done.
  - simpl. by destruct b.
  - simpl. apply Qeq_bool_iff. reflexivity.
  - simpl. apply String.eqb_refl.
  - simpl. rewrite Nat.eqb_refl. simpl.
    apply map_forallb_true. intros k x Hk. rewrite Hk. by eapply IH.
  - by apply DeepEqual_slice_refl.
  - simpl. apply Z.eqb_refl.
Qed.

Lemma DeepEqualMap_refl (m : gmap string value) : DeepEqualMap m m = true.
Proof. apply DeepEqual_refl. Qed.

(** ** cleanupManifestDefaults *)

Lemma cleanup_fold_lookup D (init m : gmap string value) k :
  map_fold (λ key v acc, if cleanupDeletes D key v then delete key acc else acc)
           init m !! k =
  match m !! k with
  | Some v => if cleanupDeletes D k v then None else init !! k
  | None => init !! k
  end.
Proof.
  apply (map_fold_weak_ind
           (λ r m', r !! k = match m' !! k with
                             | Some v => if cleanupDeletes D k v then None else init !! k
                             | None => init !! k
                             end)).
  - by rewrite lookup_empty.
  - intros i x m' r Hi IH. destruct (decide (i = k)) as [->|Hik].
    + rewrite lookup_insert_eq. rewrite Hi in IH.
      destruct (cleanupDeletes D k x); [apply lookup_delete_eq|done].
    + rewrite lookup_insert_ne by done.
      destruct (cleanupDeletes D i x); [by rewrite lookup_delete_ne|done].
Qed.

(** The clean-up keeps exactly the entries its loop body does not delete. *)
Lemma cleanupManifestDefaults_lookup (m D : gmap string value) k :
  cleanupManifestDefaults m D !! k =
  match m !! k with
  | Some v => if cleanupDeletes D k v then None else Some v
  | None => None
  end.
Proof.
  unfold cleanupManifestDefaults. rewrite cleanup_fold_lookup.
  destruct (m !! k) as [v|] eqn:Hk; [|done]. by destruct (cleanupDeletes D k v).
Qed.

Lemma cleanupDeletes_primitive D key v :
  isPrimitiveValue v = true →
  cleanupDeletes D key v = DeepEqual v (spec_resolvedDefault D key v).
Proof.
  unfold cleanupDeletes, getPrimitiveDefaultValue, spec_resolvedDefault.
  destruct v as [|b|q|s|m|l|z]; try discriminate; intros _;
    (destruct (D !! key) as [d|]; [by destruct d|done]).
Qed.

(** C6. For a manifest and a default table, the clean-up treats the entry
    [key ↦ v] of the manifest as follows: the entry is either deleted or
    left as it is; a null value is deleted; a boolean, number or string is
    deleted iff it deep-equals the table's default for the key or, without
    a table entry, the zero value of its own type; a map or slice is
    deleted iff it is empty; a value of any other shape is left in place. *)
Theorem cleanupManifestDefaults_entry (manifestMap D : gmap string value) key v :
  manifestMap !! key = Some v →
  let after := cleanupManifestDefaults manifestMap D !! key in
  (after = None ∨ after = Some v) ∧
  match v with
  | VNil => after = None
  | VBool _ | VFloat64 _ | VString _ =>
      after = None ↔ DeepEqual v (spec_resolvedDefault D key v) = true
  | VMap mapVal => after = None ↔ mapVal = ∅
  | VSlice sliceVal => after = None ↔ sliceVal = []
  | VInt32 _ => after = Some v
  end.
Proof.
  intros Hk. cbv zeta. rewrite cleanupManifestDefaults_lookup, Hk.
  split; [destruct (cleanupDeletes D key v); auto|].
  assert (Hprim : isPrimitiveValue v = true →
            (if cleanupDeletes D key v then None else Some v) = None ↔
            DeepEqual v (spec_resolvedDefault D key v) = true).
  { intros Hp. rewrite (cleanupDeletes_primitive D key v Hp).
    destruct (DeepEqual v _); split; congruence. }
  destruct v as [|b|q|s|m|l|z]; try (by apply Hprim); simpl.
  - done.
  - destruct (Nat.eqb_spec (size m) 0) as [Hs|Hs].
    + split; [intros _; by apply map_size_empty_inv|done].
    + split; [done|]. intros ->. by rewrite map_size_empty in Hs.
  - destruct l; simpl; split; congruence.
  - done.
Qed.

Lemma cleanupManifestDefaults_entry_witness :
  let m : gmap string value :=
    list_to_map [("name", VString "t1"); ("retryCount", float64_of_Z 3);
                 ("timeoutPolicy", VString "TIME_OUT_WF")] in
  m !! "retryCount" = Some (float64_of_Z 3) ∧
  cleanupManifestDefaults m defaultTaskDefValues !! "retryCount" = None.
Proof.
  cbv zeta. split; [reflexivity|].
  eapply (cleanupManifestDefaults_entry _ defaultTaskDefValues "retryCount"
            (float64_of_Z 3)); reflexivity.
Defined.

(** Scenario A of the specification. *)
Example cleanup_scenario_A :
  cleanupManifestDefaults
    (list_to_map [("name", VString "t1"); ("retryCount", float64_of_Z 3);
                  ("timeoutPolicy", VString "TIME_OUT_WF")])
    (list_to_map [("retryCount", float64_of_Z 3);
                  ("timeoutPolicy", VString "TIME_OUT_WF")])
  = {["name" := VString "t1"]}.
Proof. reflexivity. Qed.

(** A cleaned manifest is a fixed point of the clean-up: what the first
    pass keeps, the second pass keeps, because the decision on an entry
    depends on that entry and the table only. *)
Lemma cleanupManifestDefaults_cleaned (m D : gmap string value) :
  cleanupManifestDefaults (cleanupManifestDefaults m D) D
  = cleanupManifestDefaults m D.
Proof.
  apply map_eq. intros k. rewrite !cleanupManifestDefaults_lookup.
  destruct (m !! k) as [v|]; [|done].
  destruct (cleanupDeletes D k v) eqn:Hd; [done|]. by rewrite Hd.
Qed.

(** C8. The clean-up pass is idempotent, for every manifest and every
    default table: elide(elide(tree, D), D) = elide(tree, D). *)
Theorem cleanupManifestDefaults_idempotent (tree D : gmap string value) :
  let elide := λ t, cleanupManifestDefaults t D in
  elide (elide tree) = elide tree.
Proof. apply cleanupManifestDefaults_cleaned. Qed.

(** ** mergeManifestMaps *)

Lemma mergeManifestMaps_lookup (fromMap toMap : gmap string value) k :
  mergeManifestMaps fromMap toMap !! k =
  match fromMap !! k with
  | Some fromValue =>
      if negb (bool_decide (is_Some (toMap !! k))) || isPrimitiveValue fromValue
      then Some fromValue else toMap !! k
  | None => toMap !! k
  end.
Proof.
  unfold mergeManifestMaps.
  apply (map_fold_weak_ind
           (λ r m', r !! k =
              match m' !! k with
              | Some fromValue =>
                  if negb (bool_decide (is_Some (toMap !! k))) || isPrimitiveValue fromValue
                  then Some fromValue else toMap !! k
              | None => toMap !! k
              end)).
  - by rewrite lookup_empty.
  - intros i x m' r Hi IH. destruct (decide (i = k)) as [->|Hik].
    + rewrite lookup_insert_eq. rewrite Hi in IH. rewrite IH.
      destruct (negb _ || _); [apply lookup_insert_eq|done].
    + rewrite lookup_insert_ne by done.
      destruct (negb _ || _); [by rewrite lookup_insert_ne|done].
Qed.

(** C7. For every key [k] of [fromMap]: if [k] is absent in [toMap] or the
    value in [fromMap] is primitive, then after the merge [toMap] holds
    [fromMap]'s value at [k]; if [k] is present in [toMap] and the value in
    [fromMap] is not primitive, the entry of [toMap] is unchanged. *)
Theorem mergeManifestMaps_entry (fromMap toMap : gmap string value) k fromValue :
  fromMap !! k = Some fromValue →
  (toMap !! k = None ∨ isPrimitiveValue fromValue = true →
     mergeManifestMaps fromMap toMap !! k = Some fromValue) ∧
  (is_Some (toMap !! k) → isPrimitiveValue fromValue = false →
     mergeManifestMaps fromMap toMap !! k = toMap !! k).
Proof.
  intros Hk. rewrite mergeManifestMaps_lookup, Hk. split.
  - intros [Hnone| ->]; [|by rewrite orb_true_r].
    rewrite bool_decide_eq_false_2; [done|]. rewrite Hnone. by intros [? ?].
  - intros Hsome ->. by rewrite bool_decide_eq_true_2.
Qed.

Lemma mergeManifestMaps_entry_witness :
  let fromMap : gmap string value :=
    list_to_map [("retryCount", float64_of_Z 5);
                 ("inputKeys", VSlice [VString "server"])] in
  let toMap : gmap string value :=
    list_to_map [("retryCount", float64_of_Z 4);
                 ("inputKeys", VSlice [VString "local"])] in
  mergeManifestMaps fromMap toMap !! "retryCount" = Some (float64_of_Z 5) ∧
  mergeManifestMaps fromMap toMap !! "inputKeys" = Some (VSlice [VString "local"]).
Proof.
  cbv zeta. split.
  - apply (mergeManifestMaps_entry _ _ "retryCount" (float64_of_Z 5));
      [reflexivity|]. right. reflexivity.
  - refine (proj2 (mergeManifestMaps_entry
                     (list_to_map [("retryCount", float64_of_Z 5);
                                   ("inputKeys", VSlice [VString "server"])])
                     (list_to_map [("retryCount", float64_of_Z 4);
                                   ("inputKeys", VSlice [VString "local"])])
                     "inputKeys" (VSlice [VString "server"]) eq_refl) _ eq_refl).
    eexists. reflexivity.
Defined.

(** Keys that [fromMap] does not have are not touched. *)
Lemma mergeManifestMaps_other (fromMap toMap : gmap string value) k :
  fromMap !! k = None → mergeManifestMaps fromMap toMap !! k = toMap !! k.
Proof. intros Hk. by rewrite mergeManifestMaps_lookup, Hk. Qed.

(** ** workflowDefCleanup *)

Lemma deleteAuditableFields_lookup (m : gmap string value) k :
  deleteAuditableFields m !! k =
  if bool_decide (k ∈ auditableFieldsToIgnore) then None else m !! k.
Proof.
  unfold deleteAuditableFields, auditableFieldsToIgnore. simpl.
  rewrite !lookup_delete.
  destruct (decide (k ∈ ["createTime"; "updateTime"; "createdBy"; "updatedBy"]))
    as [Hin|Hin].
  - rewrite bool_decide_eq_true_2 by done.
    rewrite !elem_of_cons, elem_of_nil in Hin.
    destruct Hin as [->|[->|[->|[->|[]]]]]; reflexivity.
  - rewrite bool_decide_eq_false_2 by done.
    rewrite !elem_of_cons in Hin.
    rewrite !decide_False; [done|intros <-; tauto..].
Qed.

Lemma workflowDocCleanup_lookup (m : gmap string value) k :
  workflowDocCleanup m !! k =
  if bool_decide (k ∈ auditableFieldsToIgnore) then None
  else match m !! k with
       | Some v => if cleanupDeletes defaultWorkflowDefValues k v then None else Some v
       | None => None
       end.
Proof.
  unfold workflowDocCleanup.
  rewrite cleanupManifestDefaults_lookup, deleteAuditableFields_lookup.
  by case_bool_decide.
Qed.

Lemma workflowDocCleanup_idempotent (m : gmap string value) :
  workflowDocCleanup (workflowDocCleanup m) = workflowDocCleanup m.
Proof.
  apply map_eq. intros k. rewrite !workflowDocCleanup_lookup.
  case_bool_decide; [done|].
  destruct (m !! k) as [v|]; [|done].
  destruct (cleanupDeletes _ k v) eqn:Hd; [done|]. by rewrite Hd.
Qed.

Lemma cleanupTask_idempotent (t : value) : cleanupTask (cleanupTask t) = cleanupTask t.
Proof.
  destruct t; try done. simpl. by rewrite cleanupManifestDefaults_cleaned.
Qed.

Lemma workflowDefCleanup_unfold (m : gmap string value) :
  workflowDefCleanup m =
  match workflowDocCleanup m !! "tasks" with
  | Some (VSlice currentTasksArr) =>
      <["tasks" := VSlice (cleanupTask <$> currentTasksArr)]> (workflowDocCleanup m)
  | _ => workflowDocCleanup m
  end.
Proof. reflexivity. Qed.

(** A task slice that the document-level pass keeps is not empty, so the
    cleaned slice written back under "tasks" survives a second pass. *)
Lemma workflowDocCleanup_insert_tasks (m : gmap string value) arr arr' :
  workflowDocCleanup m !! "tasks" = Some (VSlice arr) →
  length arr' = length arr →
  workflowDocCleanup (<["tasks" := VSlice arr']> (workflowDocCleanup m))
  = <["tasks" := VSlice arr']> (workflowDocCleanup m).
Proof.
  intros Htasks Hlen. apply map_eq. intros k.
  rewrite workflowDocCleanup_lookup.
  destruct (decide (k = "tasks")) as [->|Hk].
  - rewrite lookup_insert_eq. simpl.
    rewrite workflowDocCleanup_lookup in Htasks. simpl in Htasks.
    destruct (m !! "tasks") as [v|]; [|done].
    destruct (cleanupDeletes _ _ v) eqn:Hd; [done|].
    injection Htasks as ->. simpl in Hd. rewrite Hlen.
    rewrite Hd. done.
  - rewrite lookup_insert_ne by done.
    rewrite workflowDocCleanup_lookup.
    case_bool_decide; [done|].
    destruct (m !! k) as [v|]; [|done].
    destruct (cleanupDeletes _ k v) eqn:Hd; [done|]. by rewrite Hd.
Qed.

(** The clean-up pass of the workflow class is idempotent as well. *)
Lemma workflowDefCleanup_idempotent (m : gmap string value) :
  workflowDefCleanup (workflowDefCleanup m) = workflowDefCleanup m.
Proof.
  rewrite (workflowDefCleanup_unfold m).
  destruct (workflowDocCleanup m !! "tasks") as [v|] eqn:Htasks.
  - destruct v as [| | | | |arr|];
      try (rewrite workflowDefCleanup_unfold, workflowDocCleanup_idempotent;
           by rewrite Htasks).
    rewrite workflowDefCleanup_unfold.
    rewrite (workflowDocCleanup_insert_tasks m arr) by (done || apply length_fmap).
    rewrite lookup_insert_eq, insert_insert_eq.
    f_equal. f_equal. rewrite <- list_fmap_compose.
    apply list_fmap_ext. intros i t _. apply cleanupTask_idempotent.
  - rewrite workflowDefCleanup_unfold, workflowDocCleanup_idempotent.
    by rewrite Htasks.
Qed.

(** The document-level clean-up alone already is a cleaned copy for the
    workflow class. *)
Lemma workflowDefCleanup_cleanupManifestDefaults (m : gmap string value) :
  workflowDefCleanup (cleanupManifestDefaults m defaultWorkflowDefValues)
  = workflowDefCleanup m.
Proof.
  assert (Hdoc : workflowDocCleanup (cleanupManifestDefaults m defaultWorkflowDefValues)
                 = workflowDocCleanup m).
  { apply map_eq. intros k.
    rewrite !workflowDocCleanup_lookup, cleanupManifestDefaults_lookup.
    case_bool_decide; [done|].
    destruct (m !! k) as [v|]; [|done].
    destruct (cleanupDeletes _ k v) eqn:Hd; [done|]. by rewrite Hd. }
  by rewrite !workflowDefCleanup_unfold, Hdoc.
Qed.

(** ** The plan-equality check *)

Lemma modifyPlanWith_noop cleanup (m : gmap string value) :
  (∀ x, cleanup (cleanup x) = cleanup x) →
  modifyPlanWith cleanup (Some (TfValue (JsonDoc (VMap m))))
                         (Some (TfValue (JsonDoc (VMap (cleanup m))))) = UseState.
Proof.
  intros Hidem. simpl. rewrite Hidem. by rewrite DeepEqualMap_refl.
Qed.

(** C9. For every manifest [m], the plan-equality check of either resource
    finds [m] equal to an already cleaned copy of [m]: both sides go
    through the resource's clean-up pass and are then deeply equal, so the
    state replaces the plan and no update is dispatched. The same holds
    for the workflow class against a copy cleaned at the document level
    only, and for the generic clean-up with any default table [D]. *)
Theorem ModifyPlan_noop_stable (m D : gmap string value) :
  TaskDef_ModifyPlan
    (Some (TfValue (JsonDoc (VMap m))))
    (Some (TfValue (JsonDoc (VMap (cleanupManifestDefaults m defaultTaskDefValues)))))
  = UseState ∧
  WorkflowDef_ModifyPlan
    (Some (TfValue (JsonDoc (VMap m))))
    (Some (TfValue (JsonDoc (VMap (workflowDefCleanup m)))))
  = UseState ∧
  WorkflowDef_ModifyPlan
    (Some (TfValue (JsonDoc (VMap m))))
    (Some (TfValue (JsonDoc (VMap (cleanupManifestDefaults m defaultWorkflowDefValues)))))
  = UseState ∧
  modifyPlanWith (λ x, cleanupManifestDefaults x D)
    (Some (TfValue (JsonDoc (VMap m))))
    (Some (TfValue (JsonDoc (VMap (cleanupManifestDefaults m D)))))
  = UseState.
Proof.
  split; [|split; [|split]].
  - apply (modifyPlanWith_noop (λ x, cleanupManifestDefaults x defaultTaskDefValues)).
    intros x. apply cleanupManifestDefaults_cleaned.
  - apply (modifyPlanWith_noop workflowDefCleanup).
    apply workflowDefCleanup_idempotent.
  - unfold WorkflowDef_ModifyPlan. simpl.
    rewrite workflowDefCleanup_cleanupManifestDefaults.
    by rewrite DeepEqualMap_refl.
  - apply (modifyPlanWith_noop (λ x, cleanupManifestDefaults x D)).
    intros x. apply cleanupManifestDefaults_cleaned.
Qed.

(** ** The manifest name validator *)

(** C10 as stated fails: the JSON literal [null] parses, is not an
    object, and is reported as a manifest without a name. *)
Lemma ValidateString_null_literal :
  ValidateString (TfValue (JsonDoc VNil))
  = ["'name' parameter is missing from manifest"] ∧
  ¬ name_error_only_for_objects.
Proof.
  split; [reflexivity|]. intros H.
  destruct (H (TfValue (JsonDoc VNil))) as [m Hm]; [discriminate|discriminate].
Qed.

(** C10, amended. A null configuration value and a manifest string that
    is not parseable JSON get no diagnostic; a diagnostic is reported only
    when the string parses as a JSON object or as the JSON literal null,
    and for an object exactly when it has no "name" or its "name" is not a
    non-empty string. *)
Theorem ValidateString_diagnostics (ConfigValue : TfString) :
  (ConfigValue = TfNull ∨ ValueString ConfigValue = NotJson →
     ValidateString ConfigValue = []) ∧
  (ValidateString ConfigValue ≠ [] →
     (∃ m, ConfigValue = TfValue (JsonDoc (VMap m))) ∨
     ConfigValue = TfValue (JsonDoc VNil)) ∧
  (∀ m, ConfigValue = TfValue (JsonDoc (VMap m)) →
     (ValidateString ConfigValue = [] ↔
      ∃ nameStr, m !! "name" = Some (VString nameStr) ∧ nameStr ≠ EmptyString)).
Proof.
  split; [|split].
  - intros [->|Hnot]; [done|].
    destruct ConfigValue as [| |text]; [done|done|].
    simpl in Hnot. by subst text.
  - intros Hdiag. destruct ConfigValue as [| |[|v]]; try done.
    destruct v; try done; [by right|left; eauto].
  - intros m ->. simpl.
    destruct (m !! "name") as [v|] eqn:Hname.
    + destruct v as [| | |s| | |];
        try (split; [discriminate|intros (? & [=] & _)]).
      destruct (String.eqb_spec s EmptyString) as [->|Hne].
      * split; [discriminate|]. intros (? & [= <-] & Hne). done.
      * split; [eauto|done].
    + split; [discriminate|]. intros (? & [=] & _).
Qed.

Lemma ValidateString_diagnostics_witness :
  ValidateString (TfValue NotJson) = [] ∧
  ValidateString (TfValue (JsonDoc (VMap {["name" := VString "t1"]}))) = [].
Proof.
  split.
  - apply (ValidateString_diagnostics (TfValue NotJson)). right. reflexivity.
  - apply (proj2 (proj2 (ValidateString_diagnostics
                           (TfValue (JsonDoc (VMap {["name" := VString "t1"]})))))
                 {["name" := VString "t1"]} eq_refl).
    exists "t1". split; [reflexivity|discriminate].
Defined.

(** ** Version extraction *)

Lemma int32_add_no_overflow (v : Z) :
  MinInt32 ≤ v < MaxInt32 → int32_add v 1 = v + 1.
Proof.
  unfold int32_add, int32_wrap, MinInt32, MaxInt32. intros Hv.
  rewrite Z.mod_small by lia. lia.
Qed.

Lemma int32_add_overflow : int32_add MaxInt32 1 = MinInt32.
Proof. reflexivity. Qed.

Lemma getWorkflowVersionOptionalFromManifest_absent (m : gmap string value) :
  m !! "version" = None → getWorkflowVersionOptionalFromManifest m = Ok None.
Proof. unfold getWorkflowVersionOptionalFromManifest. by intros ->. Qed.

Lemma getWorkflowVersionOptionalFromManifest_int (m : gmap string value) (v : Z) :
  m !! "version" = Some (float64_of_Z v) → 1 ≤ v ≤ MaxInt32 →
  getWorkflowVersionOptionalFromManifest m = Ok (Some v).
Proof.
  unfold getWorkflowVersionOptionalFromManifest, float64_of_Z, MaxInt32.
  intros -> Hv.
  rewrite Qfloor_Z.
  assert (Qeq_bool (inject_Z v) (inject_Z v) = true) as ->
    by (apply Qeq_bool_iff; reflexivity).
  simpl negb. cbv iota.
  assert (int32_of_float64 (inject_Z v) = v) as ->.
  { unfold int32_of_float64, inject_Z, MinInt32, MaxInt32. simpl Qnum. simpl Qden.
    rewrite Z.quot_1_r.
    destruct (Z.leb_spec (-2147483648) v); [|lia].
    destruct (Z.leb_spec v 2147483647); [done|lia]. }
  destruct (Z.ltb_spec v 1); [lia|done].
Qed.

Lemma getWorkflowVersionOptionalFromManifest_bounds (m : gmap string value) v :
  getWorkflowVersionOptionalFromManifest m = Ok (Some v) → 1 ≤ v ≤ MaxInt32.
Proof.
  unfold getWorkflowVersionOptionalFromManifest.
  destruct (m !! "version") as [[| |q| | | |]|]; try discriminate.
  destruct (negb _); [discriminate|].
  destruct (Z.ltb_spec (int32_of_float64 q) 1); [discriminate|].
  intros [= <-]. split; [done|].
  unfold int32_of_float64.
  destruct (Z.leb_spec MinInt32 (Qnum q ÷ Z.pos (Qden q))); simpl;
    [|unfold MinInt32, MaxInt32; lia].
  destruct (Z.leb_spec (Qnum q ÷ Z.pos (Qden q)) MaxInt32); simpl;
    [done|unfold MinInt32, MaxInt32; lia].
Qed.

Lemma getWorkflowVersionFromManifest_bounds (m : gmap string value) v :
  getWorkflowVersionFromManifest m = Ok v → 1 ≤ v ≤ MaxInt32.
Proof.
  unfold getWorkflowVersionFromManifest.
  destruct (getWorkflowVersionOptionalFromManifest m) as [[v'|]|] eqn:Hv;
    try discriminate.
  intros [= <-]. by eapply getWorkflowVersionOptionalFromManifest_bounds.
Qed.

Lemma serverVersion_bounds (r : Response) v :
  serverVersion r = Some v → 1 ≤ v ≤ MaxInt32.
Proof.
  unfold serverVersion. destruct (serverManifest r) as [cur|]; [|done].
  destruct (getWorkflowVersionFromManifest cur) eqn:Hv; [|done].
  intros [= <-]. by eapply getWorkflowVersionFromManifest_bounds.
Qed.

Lemma serverVersion_workflowDocument name v :
  1 ≤ v ≤ MaxInt32 →
  serverVersion (MkResponse StatusOK (JsonDoc (workflowDocument name v)) false) = Some v.
Proof.
  intros Hv. unfold serverVersion, serverManifest. simpl.
  unfold getWorkflowVersionFromManifest.
  rewrite (getWorkflowVersionOptionalFromManifest_int _ v); [done| |done].
  rewrite lookup_insert_ne by done. apply lookup_insert_eq.
Qed.

Lemma serverManifest_inv (r : Response) cur :
  serverManifest r = Some cur →
  (StatusCode r =? StatusNotFound) = false ∧ ReadAllErr r = false ∧
  (StatusCode r =? StatusOK) = true ∧ unmarshalMap (Body r) = Some cur.
Proof.
  unfold serverManifest.
  destruct (Z.eqb_spec (StatusCode r) StatusOK) as [Hs|]; [|done].
  destruct (ReadAllErr r); [done|]. simpl. intros ->.
  rewrite Hs. done.
Qed.

Lemma serverVersion_inv (r : Response) v :
  serverVersion r = Some v →
  ∃ cur, serverManifest r = Some cur ∧ getWorkflowVersionFromManifest cur = Ok v.
Proof.
  unfold serverVersion. destruct (serverManifest r) as [cur|]; [|done].
  destruct (getWorkflowVersionFromManifest cur) eqn:Hv; [|done].
  intros [= <-]. eauto.
Qed.

(** ** The version state machine *)

Lemma getWorkflowNameFromManifest_deleteAuditableFields (m : gmap string value) :
  getWorkflowNameFromManifest (deleteAuditableFields m) = getWorkflowNameFromManifest m.
Proof.
  unfold getWorkflowNameFromManifest. by rewrite deleteAuditableFields_lookup.
Qed.

Lemma getWorkflowVersionOptionalFromManifest_deleteAuditableFields (m : gmap string value) :
  getWorkflowVersionOptionalFromManifest (deleteAuditableFields m)
  = getWorkflowVersionOptionalFromManifest m.
Proof.
  unfold getWorkflowVersionOptionalFromManifest.
  by rewrite deleteAuditableFields_lookup.
Qed.

Section StateMachine.
Context {Server : Type}.
Variable send : Request → Server → option Response * Server.
Implicit Types (c : Client Server) (planMap cur : gmap string value).

Lemma client_do_get c name r s1 :
  send (getRequest name) (server c) = (r, s1) →
  client_do send MethodGet (workflowPath name) None c
  = (r, MkClient s1 (sent c ++ [getRequest name])).
Proof. unfold client_do, getRequest. by intros ->. Qed.

(** *** checkExistingVersionBeforeCreate *)

Lemma checkExisting_absent c planMap name planVersion r s1 :
  getWorkflowNameFromManifest planMap = Ok name →
  getWorkflowVersionOptionalFromManifest planMap = Ok planVersion →
  send (getRequest name) (server c) = (Some r, s1) →
  StatusCode r = StatusNotFound →
  checkExistingVersionBeforeCreate send planMap c
  = ((default 1 planVersion, true), [], planMap,
     MkClient s1 (sent c ++ [getRequest name])).
Proof.
  intros Hname Hver Hsend Hstatus. unfold checkExistingVersionBeforeCreate.
  rewrite Hname, Hver, (client_do_get _ _ _ _ Hsend), Hstatus. simpl.
  by destruct planVersion.
Qed.

Lemma checkExisting_present c planMap name planVersion r s1 cur currentVersion :
  getWorkflowNameFromManifest planMap = Ok name →
  getWorkflowVersionOptionalFromManifest planMap = Ok planVersion →
  send (getRequest name) (server c) = (Some r, s1) →
  serverManifest r = Some cur →
  getWorkflowVersionFromManifest cur = Ok currentVersion →
  checkExistingVersionBeforeCreate send planMap c
  = let c1 := MkClient s1 (sent c ++ [getRequest name]) in
    match planVersion with
    | Some version =>
        if version <? currentVersion
        then ((0, false),
              ["Found an existing workflow definition with a larger version"],
              planMap, c1)
        else ((version, true), [], planMap, c1)
    | None =>
        if DeepEqualMap (workflowDefCleanup planMap)
                        (workflowDefCleanup (delete "version" cur))
        then ((currentVersion, false), [], workflowDefCleanup planMap, c1)
        else ((int32_add currentVersion 1, true), [], workflowDefCleanup planMap, c1)
    end.
Proof.
  intros Hname Hver Hsend Hcur Hcv. unfold checkExistingVersionBeforeCreate.
  apply serverManifest_inv in Hcur as (H404 & Hread & H200 & Hbody).
  rewrite Hname, Hver, (client_do_get _ _ _ _ Hsend).
  rewrite H404, Hread, H200, Hbody, Hcv. simpl.
  destruct planVersion as [version|]; simpl; [by destruct (version <? _)|].
  by destruct (DeepEqualMap _ _).
Qed.

(** *** Create *)

(** What Create does once checkExistingVersionBeforeCreate has decided to
    write [createVersion]: one PUT of the manifest without the
    server-owned fields and with the version, and the version is tracked
    when the PUT is accepted. *)
Lemma WorkflowDef_Create_write c planMap manifestMap createVersion c1 r2 s2 :
  checkExistingVersionBeforeCreate send planMap c
  = ((createVersion, true), [], manifestMap, c1) →
  let put := putRequest (<["version" := VInt32 createVersion]>
                           (deleteAuditableFields manifestMap)) in
  send put (server c1) = (r2, s2) →
  let res := WorkflowDef_Create send (JsonDoc (VMap planMap)) c in
  snd res = MkClient s2 (sent c1 ++ [put]) ∧
  if acceptedWrite r2 then fst res = StateSet createVersion
  else isFailed (fst res) = true.
Proof.
  intros Hcheck put Hsend. unfold WorkflowDef_Create. cbn [unmarshalMap].
  rewrite Hcheck. cbn iota beta. unfold client_do.
  fold put. unfold putRequest in put. subst put. rewrite Hsend.
  destruct r2 as [r2|]; simpl; [|done].
  destruct (StatusCode r2 =? StatusOK); simpl; [|done].
  by destruct (ReadAllErr r2).
Qed.

Lemma WorkflowDef_Create_skip c planMap manifestMap createVersion c1 :
  checkExistingVersionBeforeCreate send planMap c
  = ((createVersion, false), [], manifestMap, c1) →
  WorkflowDef_Create send (JsonDoc (VMap planMap)) c = (StateSet createVersion, c1).
Proof.
  intros Hcheck. unfold WorkflowDef_Create. cbn [unmarshalMap].
  by rewrite Hcheck.
Qed.

Lemma WorkflowDef_Create_fail c planMap manifestMap createVersion shoudCreate d ds c1 :
  checkExistingVersionBeforeCreate send planMap c
  = ((createVersion, shoudCreate), d :: ds, manifestMap, c1) →
  WorkflowDef_Create send (JsonDoc (VMap planMap)) c = (Failed (d :: ds), c1).
Proof.
  intros Hcheck. unfold WorkflowDef_Create. cbn [unmarshalMap].
  by rewrite Hcheck.
Qed.

(** Create in auto mode (no "version" in the proposed manifest), by the
    answer to the GET for the name. On 404 version 1 is written. When
    the name exists with version [v]: no request beyond the GET is
    issued and [v] is tracked if the cleaned proposed manifest deeply
    equals the server's cleaned manifest without its "version";
    otherwise the cleaned manifest is written with the int32 sum
    [v + 1], which is [v + 1] unless [v] is the largest int32. *)
Lemma WorkflowDef_Create_auto c planMap name r s1 :
  getWorkflowNameFromManifest planMap = Ok name →
  planMap !! "version" = None →
  send (getRequest name) (server c) = (Some r, s1) →
  let res := WorkflowDef_Create send (JsonDoc (VMap planMap)) c in
  let c1 := MkClient s1 (sent c ++ [getRequest name]) in
  (StatusCode r = StatusNotFound →
     let put := putRequest (<["version" := VInt32 1]> (deleteAuditableFields planMap)) in
     sent (snd res) = sent c ++ [getRequest name; put] ∧
     if acceptedWrite (fst (send put s1)) then fst res = StateSet 1
     else isFailed (fst res) = true) ∧
  (∀ cur v,
     serverManifest r = Some cur →
     getWorkflowVersionFromManifest cur = Ok v →
     if DeepEqualMap (workflowDefCleanup planMap)
                     (workflowDefCleanup (delete "version" cur))
     then res = (StateSet v, c1)
     else
       let put := putRequest (<["version" := VInt32 (int32_add v 1)]>
                                (deleteAuditableFields (workflowDefCleanup planMap))) in
       sent (snd res) = sent c ++ [getRequest name; put] ∧
       (v < MaxInt32 → int32_add v 1 = v + 1) ∧
       if acceptedWrite (fst (send put s1)) then fst res = StateSet (int32_add v 1)
       else isFailed (fst res) = true).
Proof.
  intros Hname Hver Hsend res c1.
  apply getWorkflowVersionOptionalFromManifest_absent in Hver.
  split.
  - intros Hstatus put.
    pose proof (checkExisting_absent c planMap name None r s1
                  Hname Hver Hsend Hstatus) as Hcheck.
    destruct (send put s1) as [r2 s2] eqn:Hput.
    destruct (WorkflowDef_Create_write _ _ _ _ _ _ _ Hcheck Hput) as [Hsnd Hfst].
    fold res in Hsnd, Hfst. rewrite Hsnd. simpl.
    split; [by rewrite <- app_assoc|done].
  - intros cur v Hcur Hv.
    pose proof (checkExisting_present c planMap name None r s1 cur v
                  Hname Hver Hsend Hcur Hv) as Hcheck.
    cbv zeta iota beta in Hcheck.
    destruct (DeepEqualMap _ _).
    + by apply WorkflowDef_Create_skip in Hcheck.
    + intros put. destruct (send put s1) as [r2 s2] eqn:Hput.
      destruct (WorkflowDef_Create_write _ _ _ _ _ _ _ Hcheck Hput) as [Hsnd Hfst].
      fold res in Hsnd, Hfst. rewrite Hsnd. simpl.
      split; [by rewrite <- app_assoc|]. split; [|done].
      intros Hlt. apply int32_add_no_overflow.
      apply getWorkflowVersionFromManifest_bounds in Hv.
      unfold MinInt32, MaxInt32 in *. lia.
Qed.

(** Create in manual mode (a valid "version" in the proposed manifest), by
    the answer to the GET for the name: on 404 the requested version is
    written as it is; when the name exists with version [cv], a smaller
    requested version fails with the version conflict and nothing is
    written, and any other requested version is written, whether or not
    the manifests are equal after the clean-up. *)
Lemma WorkflowDef_Create_manual c planMap name version r s1 :
  getWorkflowNameFromManifest planMap = Ok name →
  getWorkflowVersionOptionalFromManifest planMap = Ok (Some version) →
  send (getRequest name) (server c) = (Some r, s1) →
  let res := WorkflowDef_Create send (JsonDoc (VMap planMap)) c in
  let c1 := MkClient s1 (sent c ++ [getRequest name]) in
  let put := putRequest (<["version" := VInt32 version]> (deleteAuditableFields planMap)) in
  let written :=
    sent (snd res) = sent c ++ [getRequest name; put] ∧
    if acceptedWrite (fst (send put s1)) then fst res = StateSet version
    else isFailed (fst res) = true in
  (StatusCode r = StatusNotFound → written) ∧
  (∀ cur cv,
     serverManifest r = Some cur →
     getWorkflowVersionFromManifest cur = Ok cv →
     if version <? cv
     then res = (Failed ["Found an existing workflow definition with a larger version"], c1)
     else written).
Proof.
  intros Hname Hver Hsend res c1 put written.
  assert (Hwrite : checkExistingVersionBeforeCreate send planMap c
                   = ((version, true), [], planMap, c1) → written).
  { intros Hcheck. unfold written. destruct (send put s1) as [r2 s2] eqn:Hput.
    destruct (WorkflowDef_Create_write _ _ _ _ _ _ _ Hcheck Hput) as [Hsnd Hfst].
    fold res in Hsnd, Hfst. rewrite Hsnd. simpl.
    split; [by rewrite <- app_assoc|done]. }
  split.
  - intros Hstatus. apply Hwrite.
    apply (checkExisting_absent c planMap name (Some version) r s1
             Hname Hver Hsend Hstatus).
  - intros cur cv Hcur Hcv.
    pose proof (checkExisting_present c planMap name (Some version) r s1 cur cv
                  Hname Hver Hsend Hcur Hcv) as Hcheck.
    cbv zeta iota beta in Hcheck. destruct (version <? cv).
    + by apply WorkflowDef_Create_fail in Hcheck.
    + by apply Hwrite.
Qed.

(** *** Update *)

Lemma verifyValidVersionForUpdate_absent c planMap name planVersion r s1 :
  getWorkflowNameFromManifest planMap = Ok name →
  send (getRequest name) (server c) = (Some r, s1) →
  StatusCode r = StatusNotFound →
  verifyValidVersionForUpdate send planMap planVersion c
  = (Some [], MkClient s1 (sent c ++ [getRequest name])).
Proof.
  intros Hname Hsend Hstatus. unfold verifyValidVersionForUpdate.
  by rewrite Hname, (client_do_get _ _ _ _ Hsend), Hstatus.
Qed.

Lemma verifyValidVersionForUpdate_present c planMap name planVersion r s1 currentVersion :
  getWorkflowNameFromManifest planMap = Ok name →
  send (getRequest name) (server c) = (Some r, s1) →
  serverVersion r = Some currentVersion →
  verifyValidVersionForUpdate send planMap planVersion c
  = (Some (if planVersion <? currentVersion
           then ["Found an existing workflow definition with a larger version"]
           else []),
     MkClient s1 (sent c ++ [getRequest name])).
Proof.
  intros Hname Hsend Hcv. unfold verifyValidVersionForUpdate.
  apply serverVersion_inv in Hcv as (cur & Hcur & Hcv).
  apply serverManifest_inv in Hcur as (H404 & Hread & H200 & Hbody).
  rewrite Hname, (client_do_get _ _ _ _ Hsend).
  rewrite H404, Hread, H200, Hbody, Hcv. simpl.
  by destruct (planVersion <? currentVersion).
Qed.

(** The transport error the source does not return from. *)
Lemma verifyValidVersionForUpdate_transport_error c planMap name planVersion s1 :
  getWorkflowNameFromManifest planMap = Ok name →
  send (getRequest name) (server c) = (None, s1) →
  fst (verifyValidVersionForUpdate send planMap planVersion c) = None.
Proof.
  intros Hname Hsend. unfold verifyValidVersionForUpdate.
  by rewrite Hname, (client_do_get _ _ _ _ Hsend).
Qed.

(** Update in manual mode, by the answer to the GET for the name: a
    requested version below the server's latest fails with the version
    conflict and nothing is written; otherwise, and when the name is
    absent, the manifest is written with its own "version" entry, the
    requested version, unchanged. *)
Lemma WorkflowDef_Update_manual c planMap name planVersion stateVersion r s1 :
  getWorkflowNameFromManifest planMap = Ok name →
  getWorkflowVersionOptionalFromManifest planMap = Ok (Some planVersion) →
  send (getRequest name) (server c) = (Some r, s1) →
  let res := WorkflowDef_Update send (JsonDoc (VMap planMap)) stateVersion c in
  let c1 := MkClient s1 (sent c ++ [getRequest name]) in
  let put := putRequest (deleteAuditableFields planMap) in
  let written :=
    sent (snd res) = sent c ++ [getRequest name; put] ∧
    updateOutcome planVersion (fst res) (fst (send put s1)) in
  (StatusCode r = StatusNotFound → written) ∧
  (∀ currentVersion,
     serverVersion r = Some currentVersion →
     if planVersion <? currentVersion
     then res = (Failed ["Found an existing workflow definition with a larger version"], c1)
     else written).
Proof.
  intros Hname Hver Hsend res c1 put written.
  rewrite <- getWorkflowNameFromManifest_deleteAuditableFields in Hname.
  rewrite <- getWorkflowVersionOptionalFromManifest_deleteAuditableFields in Hver.
  assert (Hwrite : verifyValidVersionForUpdate send (deleteAuditableFields planMap)
                     planVersion c = (Some [], c1) → written).
  { intros Hverify. subst written res put. unfold WorkflowDef_Update.
    cbn [unmarshalMap]. rewrite Hver, Hverify. subst c1.
    unfold client_do, putRequest. cbn [server sent].
    destruct (send _ s1) as [[r2|] s2]; simpl;
      [destruct (StatusCode r2 =? StatusNotFound);
       [|destruct (StatusCode r2 =? StatusOK); [|destruct (ReadAllErr r2)]]|];
      simpl; (split; [by rewrite <- app_assoc|done]). }
  split.
  - intros Hstatus. apply Hwrite.
    by apply (verifyValidVersionForUpdate_absent c _ name planVersion r s1).
  - intros currentVersion Hcv.
    pose proof (verifyValidVersionForUpdate_present c _ name planVersion r s1
                  currentVersion Hname Hsend Hcv) as Hverify.
    destruct (planVersion <? currentVersion).
    + unfold res, WorkflowDef_Update. cbn [unmarshalMap].
      by rewrite Hver, Hverify.
    + by apply Hwrite.
Qed.

(** Update in auto mode: without any check the manifest is written with
    the int32 sum of the tracked version and 1, which is the tracked
    version plus 1 unless that is the largest int32. *)
Lemma WorkflowDef_Update_auto c planMap stateVersion :
  planMap !! "version" = None →
  let res := WorkflowDef_Update send (JsonDoc (VMap planMap)) stateVersion c in
  let newVersion := int32_add stateVersion 1 in
  let put := putRequest (<["version" := VInt32 newVersion]>
                           (deleteAuditableFields planMap)) in
  sent (snd res) = sent c ++ [put] ∧
  updateOutcome newVersion (fst res) (fst (send put (server c))) ∧
  (MinInt32 ≤ stateVersion < MaxInt32 → newVersion = stateVersion + 1).
Proof.
  intros Hver res newVersion put.
  apply getWorkflowVersionOptionalFromManifest_absent in Hver.
  rewrite <- getWorkflowVersionOptionalFromManifest_deleteAuditableFields in Hver.
  subst res put newVersion. unfold WorkflowDef_Update.
  cbn [unmarshalMap]. rewrite Hver. unfold client_do, putRequest.
  split; [|split; [|apply int32_add_no_overflow]];
    (destruct (send _ (server c)) as [[r2|] s2]; simpl;
     [destruct (StatusCode r2 =? StatusNotFound);
      [|destruct (StatusCode r2 =? StatusOK); [|destruct (ReadAllErr r2)]]|];
     done).
Qed.

(** *** Delete *)

Lemma getLatestVersion_present c name r s1 v :
  send (getRequest name) (server c) = (Some r, s1) →
  serverVersion r = Some v →
  getLatestVersion send name c
  = (Ok (Some v), MkClient s1 (sent c ++ [getRequest name])).
Proof.
  intros Hsend Hv. unfold getLatestVersion.
  apply serverVersion_inv in Hv as (cur & Hcur & Hv).
  apply serverManifest_inv in Hcur as (H404 & Hread & H200 & Hbody).
  rewrite (client_do_get _ _ _ _ Hsend).
  by rewrite H404, Hread, H200, Hbody, Hv.
Qed.

Lemma getLatestVersion_absent c name r s1 :
  send (getRequest name) (server c) = (Some r, s1) →
  StatusCode r = StatusNotFound →
  getLatestVersion send name c
  = (Ok None, MkClient s1 (sent c ++ [getRequest name])).
Proof.
  intros Hsend Hstatus. unfold getLatestVersion.
  by rewrite (client_do_get _ _ _ _ Hsend), Hstatus.
Qed.

(** One iteration of the loop that finds version [v] as the latest,
    with [v] not the version deleted just before: [v] is deleted, and
    the loop goes on exactly when the DELETE is answered with 200. *)
Lemma WorkflowDef_Delete_loop_step fuel c name currentVersion r1 s1 v r2 s2 :
  send (getRequest name) (server c) = (Some r1, s1) →
  serverVersion r1 = Some v →
  currentVersion = 0 ∨ currentVersion ≠ v →
  send (deleteRequest name v) s1 = (Some r2, s2) →
  let c2 := MkClient s2 (sent c ++ [getRequest name; deleteRequest name v]) in
  WorkflowDef_Delete_loop send (S fuel) name currentVersion c
  = if StatusCode r2 =? StatusOK
    then WorkflowDef_Delete_loop send fuel name v c2
    else (Failed ["HTTP Error"], c2).
Proof.
  intros Hget Hv Hcur Hdel c2. cbn [WorkflowDef_Delete_loop].
  rewrite (getLatestVersion_present _ _ _ _ _ Hget Hv).
  assert ((0 <? currentVersion) && (currentVersion =? v) = false) as ->.
  { destruct Hcur as [->|Hne]; [done|].
    apply andb_false_iff. right. by apply Z.eqb_neq. }
  unfold client_do. cbn [server sent]. fold (deleteRequest name v).
  rewrite Hdel. subst c2. rewrite <- app_assoc. simpl.
  by destruct (StatusCode r2 =? StatusOK).
Qed.

(** The iteration that finds no version left ends the loop. *)
Lemma WorkflowDef_Delete_loop_done fuel c name currentVersion r s1 :
  send (getRequest name) (server c) = (Some r, s1) →
  StatusCode r = StatusNotFound →
  WorkflowDef_Delete_loop send (S fuel) name currentVersion c
  = (StateSet (), MkClient s1 (sent c ++ [getRequest name])).
Proof.
  intros Hget Hstatus. cbn [WorkflowDef_Delete_loop].
  by rewrite (getLatestVersion_absent _ _ _ _ Hget Hstatus).
Qed.

(** The iteration that finds the version deleted just before as the
    latest again aborts. *)
Lemma WorkflowDef_Delete_loop_same fuel c name r s1 v :
  send (getRequest name) (server c) = (Some r, s1) →
  serverVersion r = Some v →
  WorkflowDef_Delete_loop send (S fuel) name v c
  = (Failed ["Delete failed, try to delete the same version twice"],
     MkClient s1 (sent c ++ [getRequest name])).
Proof.
  intros Hget Hv. cbn [WorkflowDef_Delete_loop].
  rewrite (getLatestVersion_present _ _ _ _ _ Hget Hv).
  apply serverVersion_bounds in Hv.
  assert ((0 <? v) && (v =? v) = true) as ->; [|done].
  rewrite Z.eqb_refl, andb_true_r. apply Z.ltb_lt. lia.
Qed.

Lemma WorkflowDef_Delete_unfold fuel c manifestMap name :
  getWorkflowNameFromManifest manifestMap = Ok name →
  WorkflowDef_Delete send fuel (JsonDoc (VMap manifestMap)) c
  = WorkflowDef_Delete_loop send fuel name 0 c.
Proof. intros Hname. unfold WorkflowDef_Delete. cbn [unmarshalMap]. by rewrite Hname. Qed.

(** A server that reports version [v] as the latest again after its
    DELETE was answered with 200 makes Delete fail after that one DELETE. *)
Lemma WorkflowDef_Delete_same_version_twice fuel c manifestMap name v r1 s1 r2 s2 r3 s3 :
  getWorkflowNameFromManifest manifestMap = Ok name →
  send (getRequest name) (server c) = (Some r1, s1) →
  serverVersion r1 = Some v →
  send (deleteRequest name v) s1 = (Some r2, s2) →
  StatusCode r2 = StatusOK →
  send (getRequest name) s2 = (Some r3, s3) →
  serverVersion r3 = Some v →
  WorkflowDef_Delete send (S (S fuel)) (JsonDoc (VMap manifestMap)) c
  = (Failed ["Delete failed, try to delete the same version twice"],
     MkClient s3 (sent c ++ [getRequest name; deleteRequest name v; getRequest name])).
Proof.
  intros Hname Hget1 Hv1 Hdel Hok Hget3 Hv3.
  rewrite (WorkflowDef_Delete_unfold _ _ _ _ Hname).
  rewrite (WorkflowDef_Delete_loop_step _ _ _ _ _ _ _ _ _ Hget1 Hv1 (or_introl eq_refl) Hdel).
  rewrite Hok. simpl (_ =? _).  cbv iota.
  rewrite (WorkflowDef_Delete_loop_same _ _ _ r3 s3 v); [|done|done].
  cbn [sent]. by rewrite <- app_assoc.
Qed.

(** Rounds that each delete a version take the loop from its entry state
    to the state after them, one unit of fuel per round. *)
Lemma WorkflowDef_Delete_loop_rounds name currentVersion s versions lastVersion s' :
  deleteRounds send name currentVersion s versions lastVersion s' →
  ∀ fuel log,
    WorkflowDef_Delete_loop send (length versions + fuel) name currentVersion
      (MkClient s log)
    = WorkflowDef_Delete_loop send fuel name lastVersion
        (MkClient s' (log ++ roundsTrace name versions)).
Proof.
  induction 1 as [currentVersion s
                 |currentVersion s nextVersion r1 s1 r2 s2 versions lastVersion s'
                    Hget Hv Hne Hdel Hok _ IH]; intros fuel log.
  - unfold roundsTrace. simpl. by rewrite app_nil_r.
  - cbn [length Nat.add].
    rewrite (WorkflowDef_Delete_loop_step (length versions + fuel) (MkClient s log)
               name currentVersion r1 s1 nextVersion r2 s2
               Hget Hv (or_intror Hne) Hdel).
    rewrite Hok. simpl (_ =? _). cbv iota. cbn [sent].
    rewrite IH. unfold roundsTrace. cbn [flat_map].
    by rewrite <- !app_assoc.
Qed.

Lemma last_cons_default (x : Z) (l : list Z) (d d' : Z) :
  List.last (x :: l) d = List.last (x :: l) d'.
Proof. revert x. induction l as [|y l IH]; intros x; [done|]. apply (IH y). Qed.

(** After the rounds the loop variable is the version deleted last, and
    the one at entry when there was no round. *)
Lemma deleteRounds_last name currentVersion s versions lastVersion s' :
  deleteRounds send name currentVersion s versions lastVersion s' →
  lastVersion = List.last versions currentVersion.
Proof.
  induction 1 as [|currentVersion s nextVersion r1 s1 r2 s2 versions lastVersion s'
                    _ _ _ _ _ _ IH]; [done|].
  rewrite IH. destruct versions as [|x l]; [done|].
  change (List.last (nextVersion :: x :: l) currentVersion)
    with (List.last (x :: l) currentVersion).
  apply last_cons_default.
Qed.

(** Delete aborts when, after any number of rounds, the GET reports the
    version deleted in the last round as the latest again. *)
Lemma WorkflowDef_Delete_same_after_rounds fuel c manifestMap name versions v s' r s'' :
  getWorkflowNameFromManifest manifestMap = Ok name →
  deleteRounds send name 0 (server c) versions v s' →
  send (getRequest name) s' = (Some r, s'') →
  serverVersion r = Some v →
  WorkflowDef_Delete send (length versions + S fuel) (JsonDoc (VMap manifestMap)) c
  = (Failed ["Delete failed, try to delete the same version twice"],
     MkClient s'' (sent c ++ roundsTrace name versions ++ [getRequest name])).
Proof.
  intros Hname Hrounds Hget Hv.
  rewrite (WorkflowDef_Delete_unfold _ _ _ _ Hname). destruct c as [s log].
  cbn [server sent] in *.
  rewrite (WorkflowDef_Delete_loop_rounds _ _ _ _ _ _ Hrounds).
  rewrite (WorkflowDef_Delete_loop_same fuel _ name r s'' v); [|done|done].
  cbn [sent]. by rewrite <- app_assoc.
Qed.

(** Delete fails at once when, after any number of rounds, the DELETE of
    the latest version is answered with a status other than 200. *)
Lemma WorkflowDef_Delete_status_after_rounds fuel c manifestMap name versions
    currentVersion s' v r1 s1 r2 s2 :
  getWorkflowNameFromManifest manifestMap = Ok name →
  deleteRounds send name 0 (server c) versions currentVersion s' →
  send (getRequest name) s' = (Some r1, s1) →
  serverVersion r1 = Some v →
  currentVersion ≠ v →
  send (deleteRequest name v) s1 = (Some r2, s2) →
  StatusCode r2 ≠ StatusOK →
  WorkflowDef_Delete send (length versions + S fuel) (JsonDoc (VMap manifestMap)) c
  = (Failed ["HTTP Error"],
     MkClient s2 (sent c ++ roundsTrace name versions
                    ++ [getRequest name; deleteRequest name v])).
Proof.
  intros Hname Hrounds Hget Hv Hne Hdel Hstatus.
  rewrite (WorkflowDef_Delete_unfold _ _ _ _ Hname). destruct c as [s log].
  cbn [server sent] in *.
  rewrite (WorkflowDef_Delete_loop_rounds _ _ _ _ _ _ Hrounds).
  rewrite (WorkflowDef_Delete_loop_step fuel
             (MkClient s' (log ++ roundsTrace name versions))
             name currentVersion r1 s1 v r2 s2 Hget Hv (or_intror Hne) Hdel).
  apply Z.eqb_neq in Hstatus as ->. cbn [sent]. by rewrite <- app_assoc.
Qed.

(** *** TaskDefResource.Delete *)

Lemma TaskDef_Delete_status c manifestMap taskType r s1 :
  getTaskTypeFromManifest manifestMap = Ok taskType →
  let delete := MkRequest MethodDelete (taskdefPath taskType) None in
  let get := MkRequest MethodGet (taskdefPath taskType) None in
  send delete (server c) = (Some r, s1) →
  TaskDef_Delete send (JsonDoc (VMap manifestMap)) c
  = if StatusCode r =? StatusOK then
      (StateSet (), MkClient s1 (sent c ++ [delete]))
    else if StatusCode r =? StatusInternalServerError then
      let g := send get s1 in
      (match fst g with
       | Some r' => if StatusCode r' =? StatusNotFound
                    then StateSet () else Failed ["HTTP Error"]
       | None => Failed ["HTTP Error"]
       end,
       MkClient (snd g) (sent c ++ [delete; get]))
    else (Failed ["HTTP Error"], MkClient s1 (sent c ++ [delete])).
Proof.
  intros Hname delete get Hdel. unfold TaskDef_Delete. cbn [unmarshalMap].
  rewrite Hname. unfold client_do. fold delete. rewrite Hdel. cbn [server sent].
  destruct (StatusCode r =? StatusOK); [done|]. simpl negb. cbv iota.
  destruct (StatusCode r =? StatusInternalServerError); [|done].
  fold get. destruct (send get s1) as [[r'|] s2]; simpl;
    [destruct (StatusCode r' =? StatusNotFound)|]; by rewrite <- app_assoc.
Qed.

End StateMachine.

(** ** Deleting the versions [n .. 1] *)

Lemma store_send_get name versions :
  store_send (getRequest name) (MkWorkflowStore name versions)
  = (match versions with
     | [] => statusResponse StatusNotFound
     | v :: _ => okResponse (workflowDocument name v)
     end, MkWorkflowStore name versions).
Proof.
  unfold store_send, getRequest. simpl. rewrite String.eqb_refl.
  by destruct versions.
Qed.

Lemma store_send_delete_latest name v versions :
  store_send (deleteRequest name v) (MkWorkflowStore name (v :: versions))
  = (statusResponse StatusOK, MkWorkflowStore name versions).
Proof.
  unfold store_send, deleteRequest. simpl. by rewrite String.eqb_refl.
Qed.

Lemma WorkflowDef_Delete_loop_store (n : nat) :
  ∀ name currentVersion log fuel,
    Z.of_nat n ≤ MaxInt32 →
    currentVersion = 0 ∨ Z.of_nat n < currentVersion →
    (n < fuel)%nat →
    WorkflowDef_Delete_loop store_send fuel name currentVersion
      (MkClient (MkWorkflowStore name (versionsDownFrom n)) log)
    = (StateSet (), MkClient (MkWorkflowStore name []) (log ++ deleteTrace name n)).
Proof.
  induction n as [|k IH]; intros name currentVersion log fuel Hmax Hcur Hfuel;
    (destruct fuel as [|fuel]; [lia|]).
  - cbn [versionsDownFrom].
    by rewrite (WorkflowDef_Delete_loop_done store_send fuel
                  (MkClient (MkWorkflowStore name []) log) name currentVersion
                  (MkResponse StatusNotFound NotJson false) _
                  (store_send_get name []) eq_refl).
  - cbn [versionsDownFrom].
    assert (Hv : 1 ≤ Z.of_nat (S k) ≤ MaxInt32) by lia.
    assert (Hne : currentVersion = 0 ∨ currentVersion ≠ Z.of_nat (S k)) by lia.
    rewrite (WorkflowDef_Delete_loop_step store_send fuel
               (MkClient (MkWorkflowStore name (Z.of_nat (S k) :: versionsDownFrom k)) log)
               name currentVersion
               (MkResponse StatusOK (JsonDoc (workflowDocument name (Z.of_nat (S k)))) false)
               _ (Z.of_nat (S k))
               (MkResponse StatusOK NotJson false) _
               (store_send_get name _)
               (serverVersion_workflowDocument name _ Hv) Hne
               (store_send_delete_latest name _ _)).
    simpl (StatusCode _ =? _). cbv iota.
    rewrite IH by lia. unfold deleteTrace. cbn [versionsDownFrom flat_map sent].
    by rewrite <- !app_assoc.
Qed.

Lemma deletesOf_deleteTrace name n :
  deletesOf (deleteTrace name n) = deleteRequest name <$> versionsDownFrom n.
Proof.
  unfold deleteTrace, deletesOf. induction n as [|k IH]; [done|].
  cbn [versionsDownFrom flat_map fmap list_fmap]. simpl. by rewrite IH.
Qed.

Lemma length_versionsDownFrom n : length (versionsDownFrom n) = n.
Proof. induction n; simpl; congruence. Qed.

(** C2. Delete against a server that holds the versions [1 .. n] of the
    name: with more than [n] iterations allowed the loop ends normally; it
    issues, per version, the GET for the latest version and the DELETE of
    it, exactly [n] DELETEs for the versions n, n-1, ..., 1 in that order;
    it ends on the GET that no longer resolves the name (404), with no
    version left. And against any server, after any number of rounds that
    each deleted the version reported as the latest: when the next GET
    reports the version deleted in the last round as the latest again,
    Delete aborts with an error; that version is not deleted a second time
    and the GET is the last request. *)
Theorem WorkflowDef_Delete_all_versions :
  (∀ (manifestMap : gmap string value) name (n fuel : nat),
     getWorkflowNameFromManifest manifestMap = Ok name →
     Z.of_nat n ≤ MaxInt32 →
     (n < fuel)%nat →
     let res := WorkflowDef_Delete store_send fuel (JsonDoc (VMap manifestMap))
                  (MkClient (MkWorkflowStore name (versionsDownFrom n)) []) in
     fst res = StateSet () ∧
     sent (snd res) = deleteTrace name n ∧
     deletesOf (sent (snd res)) = deleteRequest name <$> versionsDownFrom n ∧
     length (deletesOf (sent (snd res))) = n ∧
     store_versions (server (snd res)) = [] ∧
     fst (store_send (getRequest name) (server (snd res)))
     = statusResponse StatusNotFound) ∧
  (∀ (Server : Type) (send : Request → Server → option Response * Server)
     (c : Client Server) (manifestMap : gmap string value) name
     (versions : list Z) v s' r s'' (fuel : nat),
     getWorkflowNameFromManifest manifestMap = Ok name →
     deleteRounds send name 0 (server c) versions v s' →
     send (getRequest name) s' = (Some r, s'') →
     serverVersion r = Some v →
     versions ≠ [] ∧
     List.last versions 0 = v ∧
     WorkflowDef_Delete send (length versions + S fuel) (JsonDoc (VMap manifestMap)) c
     = (Failed ["Delete failed, try to delete the same version twice"],
        MkClient s'' (sent c ++ roundsTrace name versions ++ [getRequest name]))).
Proof.
  split.
  - intros manifestMap name n fuel Hname Hmax Hfuel res. subst res.
    rewrite (WorkflowDef_Delete_unfold _ _ _ _ _ Hname).
    rewrite (WorkflowDef_Delete_loop_store n name 0 [] fuel Hmax (or_introl eq_refl) Hfuel).
    cbn [fst snd sent server store_versions app].
    rewrite deletesOf_deleteTrace, length_fmap, length_versionsDownFrom.
    by rewrite store_send_get.
  - intros Server send c manifestMap name versions v s' r s'' fuel Hname Hrounds Hget Hv.
    pose proof (deleteRounds_last send _ _ _ _ _ _ Hrounds) as Hlast.
    pose proof (serverVersion_bounds _ _ Hv) as Hbounds.
    split; [|split].
    + intros ->. simpl in Hlast. lia.
    + done.
    + apply (WorkflowDef_Delete_same_after_rounds send fuel c manifestMap name
               versions v s' r s'' Hname Hrounds Hget Hv).
Qed.

(** Scenario D of the specification; and a server that reports version 3,
    then version 2, and version 2 again after its DELETE: Delete aborts
    after the DELETEs of 3 and 2. *)
Lemma WorkflowDef_Delete_all_versions_witness :
  deletesOf (sent (snd (WorkflowDef_Delete store_send 4
                          (JsonDoc (VMap {["name" := VString "w1"]}))
                          (MkClient (MkWorkflowStore "w1" (versionsDownFrom 3)) []))))
  = [deleteRequest "w1" 3; deleteRequest "w1" 2; deleteRequest "w1" 1] ∧
  WorkflowDef_Delete scripted_send 3
    (JsonDoc (VMap {["name" := VString "w1"]}))
    (MkClient [okResponse (workflowDocument "w1" 3); statusResponse StatusOK;
               okResponse (workflowDocument "w1" 2); statusResponse StatusOK;
               okResponse (workflowDocument "w1" 2)] [])
  = (Failed ["Delete failed, try to delete the same version twice"],
     MkClient [] [getRequest "w1"; deleteRequest "w1" 3;
                  getRequest "w1"; deleteRequest "w1" 2; getRequest "w1"]).
Proof.
  split.
  - apply (proj1 WorkflowDef_Delete_all_versions
             {["name" := VString "w1"]} "w1" 3%nat 4%nat);
      [reflexivity | unfold MaxInt32; simpl; lia | lia].
  - assert (Hrounds :
      deleteRounds scripted_send "w1" 0
        [okResponse (workflowDocument "w1" 3); statusResponse StatusOK;
         okResponse (workflowDocument "w1" 2); statusResponse StatusOK;
         okResponse (workflowDocument "w1" 2)]
        [3; 2] 2 [okResponse (workflowDocument "w1" 2)]).
    { apply (deleteRounds_cons scripted_send "w1" 0 _ 3
               (MkResponse StatusOK (JsonDoc (workflowDocument "w1" 3)) false)
               [statusResponse StatusOK; okResponse (workflowDocument "w1" 2);
                statusResponse StatusOK; okResponse (workflowDocument "w1" 2)]
               (MkResponse StatusOK NotJson false)
               [okResponse (workflowDocument "w1" 2); statusResponse StatusOK;
                okResponse (workflowDocument "w1" 2)]);
        [reflexivity | reflexivity | discriminate | reflexivity | reflexivity |].
      apply (deleteRounds_cons scripted_send "w1" 3 _ 2
               (MkResponse StatusOK (JsonDoc (workflowDocument "w1" 2)) false)
               [statusResponse StatusOK; okResponse (workflowDocument "w1" 2)]
               (MkResponse StatusOK NotJson false)
               [okResponse (workflowDocument "w1" 2)]);
        [reflexivity | reflexivity | discriminate | reflexivity | reflexivity |].
      apply deleteRounds_nil. }
    exact (proj2 (proj2 (proj2 WorkflowDef_Delete_all_versions Script scripted_send
             (MkClient [okResponse (workflowDocument "w1" 3); statusResponse StatusOK;
                        okResponse (workflowDocument "w1" 2); statusResponse StatusOK;
                        okResponse (workflowDocument "w1" 2)] [])
             {["name" := VString "w1"]} "w1" [3; 2] 2
             [okResponse (workflowDocument "w1" 2)]
             (MkResponse StatusOK (JsonDoc (workflowDocument "w1" 2)) false)
             [] 0%nat eq_refl Hrounds eq_refl eq_refl))).
Defined.

(** ** Create and Update: the claims *)

(** Create in auto mode (no "version" in the proposed manifest), by
    the answer to the GET for the name. If the GET returns 404, version 1
    is assigned and the manifest is written. If the name exists with
    server version [v] and the cleaned proposed manifest deeply equals the
    server's cleaned manifest with its "version" removed, no write is
    issued and the tracked version is set to [v]. Otherwise the version
    [v + 1], the sum in the code's int32, is assigned and the manifest is
    written; the sum is the integer [v + 1] for every server version below
    the largest int32. The assigned version is tracked when the PUT is
    accepted. *)
Theorem WorkflowDef_Create_auto_mode :
  ∀ (Server : Type) (send : Request → Server → option Response * Server)
    (c : Client Server) (planMap : gmap string value) name r s1,
    getWorkflowNameFromManifest planMap = Ok name →
    planMap !! "version" = None →
    send (getRequest name) (server c) = (Some r, s1) →
    let res := WorkflowDef_Create send (JsonDoc (VMap planMap)) c in
    let c1 := MkClient s1 (sent c ++ [getRequest name]) in
    (StatusCode r = StatusNotFound →
       let put := putRequest (<["version" := VInt32 1]> (deleteAuditableFields planMap)) in
       sent (snd res) = sent c ++ [getRequest name; put] ∧
       if acceptedWrite (fst (send put s1)) then fst res = StateSet 1
       else isFailed (fst res) = true) ∧
    (∀ cur v,
       serverManifest r = Some cur →
       getWorkflowVersionFromManifest cur = Ok v →
       if DeepEqualMap (workflowDefCleanup planMap)
                       (workflowDefCleanup (delete "version" cur))
       then res = (StateSet v, c1)
       else
         let put := putRequest (<["version" := VInt32 (int32_add v 1)]>
                                  (deleteAuditableFields (workflowDefCleanup planMap))) in
         sent (snd res) = sent c ++ [getRequest name; put] ∧
         (v < MaxInt32 → int32_add v 1 = v + 1) ∧
         if acceptedWrite (fst (send put s1)) then fst res = StateSet (int32_add v 1)
         else isFailed (fst res) = true).
Proof.
  intros Server send c planMap name r s1 Hname Hver Hsend.
  apply (WorkflowDef_Create_auto send c planMap name r s1 Hname Hver Hsend).
Qed.

(** Version 2 exists with another description: version 3 is written. *)
Lemma WorkflowDef_Create_auto_mode_witness :
  let planMap : gmap string value :=
    list_to_map [("name", VString "w1"); ("description", VString "new")] in
  let current : gmap string value :=
    list_to_map [("name", VString "w1"); ("description", VString "old");
                 ("version", float64_of_Z 2)] in
  let res := WorkflowDef_Create scripted_send (JsonDoc (VMap planMap))
               (MkClient [okResponse (VMap current); statusResponse StatusOK] []) in
  sent (snd res)
  = [getRequest "w1"; putRequest (<["version" := VInt32 3]> planMap)] ∧
  fst res = StateSet 3.
Proof.
  pose proof (WorkflowDef_Create_auto_mode Script scripted_send
                (MkClient [okResponse (VMap (list_to_map
                             [("name", VString "w1"); ("description", VString "old");
                              ("version", float64_of_Z 2)]));
                           statusResponse StatusOK] [])
                (list_to_map [("name", VString "w1"); ("description", VString "new")])
                "w1"
                (MkResponse StatusOK
                   (JsonDoc (VMap (list_to_map
                      [("name", VString "w1"); ("description", VString "old");
                       ("version", float64_of_Z 2)]))) false)
                [statusResponse StatusOK] eq_refl eq_refl eq_refl) as H.
  cbv zeta in H. destruct H as [_ H].
  specialize (H (list_to_map [("name", VString "w1"); ("description", VString "old");
                              ("version", float64_of_Z 2)]) 2 eq_refl eq_refl).
  vm_compute in H. vm_compute.
  destruct H as (Hsent & _ & Hfst). split; [exact Hsent|exact Hfst].
Defined.

(** C1, at the largest int32. The name exists on the server with version
    2147483647, which the version check accepts, and with another manifest
    than the proposed one. Create in auto mode does not assign version
    2147483647 + 1: the sum [currentVersion + 1] of line 682 is an int32
    sum, and the version written with the PUT and tracked in the state is
    -2147483648. The version check of the same file refuses a manifest with
    this version as smaller than 1. *)
Theorem WorkflowDef_Create_auto_at_MaxInt32 :
  let planMap : gmap string value :=
    list_to_map [("name", VString "w1"); ("description", VString "new")] in
  let current : gmap string value :=
    list_to_map [("name", VString "w1"); ("version", float64_of_Z 2147483647)] in
  getWorkflowVersionFromManifest current = Ok 2147483647 ∧
  WorkflowDef_Create scripted_send (JsonDoc (VMap planMap))
    (MkClient [okResponse (VMap current); statusResponse StatusOK] [])
  = (StateSet (-2147483648),
     MkClient [] [getRequest "w1";
                  putRequest (<["version" := VInt32 (-2147483648)]> planMap)]) ∧
  int32_add 2147483647 1 ≠ 2147483647 + 1 ∧
  getWorkflowVersionFromManifest
    (<["version" := float64_of_Z (-2147483648)]> planMap)
  = Err "'version' is smaller than 1".
Proof. repeat split; reflexivity || discriminate. Qed.

(** Scenario B of the specification: auto-mode create against a server
    whose manifest for the name equals the proposed one after the clean-up;
    nothing is written and version 2 is tracked. *)
Example WorkflowDef_Create_scenario_B :
  let planMap : gmap string value :=
    list_to_map [("name", VString "w1"); ("tasks", VSlice [VMap {["name" := VString "t"]}])] in
  let current : gmap string value :=
    list_to_map [("name", VString "w1"); ("version", float64_of_Z 2);
                 ("schemaVersion", float64_of_Z 2); ("restartable", VBool true);
                 ("createTime", float64_of_Z 1700000000);
                 ("tasks", VSlice [VMap (list_to_map [("name", VString "t");
                                                     ("type", VString "SIMPLE");
                                                     ("startDelay", float64_of_Z 0)])])] in
  WorkflowDef_Create scripted_send (JsonDoc (VMap planMap))
    (MkClient [okResponse (VMap current)] [])
  = (StateSet 2, MkClient [] [getRequest "w1"]).
Proof. reflexivity. Qed.

(** Update, by the presence of "version" in the proposed manifest.
    With a valid "version": the requested version is compared with the
    server's latest version before any write; if it is smaller the
    operation fails with the version conflict and nothing is written;
    otherwise, and when the name is absent on the server, the manifest is
    written with its own "version" entry, the requested version, not
    incremented. Without "version": no check is made, the tracked state
    version + 1, the sum in the code's int32, is assigned and the manifest
    is always written; the sum is the integer sum for every tracked version
    below the largest int32. *)
Theorem WorkflowDef_Update_versions :
  ∀ (Server : Type) (send : Request → Server → option Response * Server)
    (c : Client Server) (planMap : gmap string value) (stateVersion : Z),
    let res := WorkflowDef_Update send (JsonDoc (VMap planMap)) stateVersion c in
    (∀ name planVersion r s1,
       getWorkflowNameFromManifest planMap = Ok name →
       getWorkflowVersionOptionalFromManifest planMap = Ok (Some planVersion) →
       send (getRequest name) (server c) = (Some r, s1) →
       let c1 := MkClient s1 (sent c ++ [getRequest name]) in
       let put := putRequest (deleteAuditableFields planMap) in
       let written :=
         sent (snd res) = sent c ++ [getRequest name; put] ∧
         getWorkflowVersionOptionalFromManifest (deleteAuditableFields planMap)
         = Ok (Some planVersion) ∧
         updateOutcome planVersion (fst res) (fst (send put s1)) in
       (StatusCode r = StatusNotFound → written) ∧
       (∀ currentVersion,
          serverVersion r = Some currentVersion →
          if planVersion <? currentVersion
          then res = (Failed ["Found an existing workflow definition with a larger version"], c1)
          else written)) ∧
    (planMap !! "version" = None →
       let newVersion := int32_add stateVersion 1 in
       let put := putRequest (<["version" := VInt32 newVersion]>
                                (deleteAuditableFields planMap)) in
       sent (snd res) = sent c ++ [put] ∧
       updateOutcome newVersion (fst res) (fst (send put (server c))) ∧
       (MinInt32 ≤ stateVersion < MaxInt32 → newVersion = stateVersion + 1)).
Proof.
  intros Server send c planMap stateVersion res. split.
  - intros name planVersion r s1 Hname Hver Hsend c1 put written.
    pose proof (WorkflowDef_Update_manual send c planMap name planVersion stateVersion
                  r s1 Hname Hver Hsend) as [Habsent Hpresent].
    assert (Hverbatim : getWorkflowVersionOptionalFromManifest
                          (deleteAuditableFields planMap) = Ok (Some planVersion))
      by (by rewrite getWorkflowVersionOptionalFromManifest_deleteAuditableFields).
    split.
    + intros Hstatus. destruct (Habsent Hstatus). by split.
    + intros currentVersion Hcv. specialize (Hpresent currentVersion Hcv).
      destruct (planVersion <? currentVersion); [done|].
      destruct Hpresent. by split.
  - intros Hver. apply (WorkflowDef_Update_auto send c planMap stateVersion Hver).
Qed.

(** Scenario C of the specification for the manual mode, and an auto-mode
    update from tracked version 3. *)
Lemma WorkflowDef_Update_versions_witness :
  WorkflowDef_Update scripted_send
    (JsonDoc (VMap (list_to_map [("name", VString "w1"); ("version", float64_of_Z 1)]))) 3
    (MkClient [okResponse (workflowDocument "w1" 3)] [])
  = (Failed ["Found an existing workflow definition with a larger version"],
     MkClient [] [getRequest "w1"]) ∧
  sent (snd (WorkflowDef_Update scripted_send
               (JsonDoc (VMap {["name" := VString "w1"]})) 3
               (MkClient [statusResponse StatusOK] [])))
  = [putRequest (<["version" := VInt32 4]> {["name" := VString "w1"]})].
Proof.
  split.
  - pose proof (proj1 (WorkflowDef_Update_versions Script scripted_send
                  (MkClient [okResponse (workflowDocument "w1" 3)] [])
                  (list_to_map [("name", VString "w1"); ("version", float64_of_Z 1)]) 3)
                  "w1" 1 (MkResponse StatusOK (JsonDoc (workflowDocument "w1" 3)) false)
                  [] eq_refl eq_refl eq_refl) as H.
    cbv zeta in H. destruct H as [_ H]. exact (H 3 eq_refl).
  - pose proof (proj2 (WorkflowDef_Update_versions Script scripted_send
                  (MkClient [statusResponse StatusOK] [])
                  {["name" := VString "w1"]} 3) eq_refl) as H.
    cbv zeta in H. exact (proj1 H).
Defined.

(** C3, at the largest int32. From the tracked version 2147483647 an
    Update in auto mode does not assign version 2147483647 + 1: the sum
    [stateVersion.ValueInt32() + 1] of line 411 is an int32 sum, and the
    version written with the PUT and tracked in the state is -2147483648.
    The version check of the same file refuses a manifest with this
    version as smaller than 1. *)
Theorem WorkflowDef_Update_auto_at_MaxInt32 :
  let planMap : gmap string value :=
    list_to_map [("name", VString "w1"); ("description", VString "new")] in
  WorkflowDef_Update scripted_send (JsonDoc (VMap planMap)) 2147483647
    (MkClient [statusResponse StatusOK] [])
  = (StateSet (-2147483648),
     MkClient [] [putRequest (<["version" := VInt32 (-2147483648)]> planMap)]) ∧
  int32_add 2147483647 1 ≠ 2147483647 + 1 ∧
  getWorkflowVersionFromManifest
    (<["version" := float64_of_Z (-2147483648)]> planMap)
  = Err "'version' is smaller than 1".
Proof. repeat split; reflexivity || discriminate. Qed.

(** Scenario C of the specification: manual-mode update that requests
    version 1 when the server's latest is 3. *)
Example WorkflowDef_Update_scenario_C :
  WorkflowDef_Update scripted_send
    (JsonDoc (VMap (list_to_map [("name", VString "w1"); ("version", float64_of_Z 1)]))) 3
    (MkClient [okResponse (workflowDocument "w1" 3)] [])
  = (Failed ["Found an existing workflow definition with a larger version"],
     MkClient [] [getRequest "w1"]).
Proof. reflexivity. Qed.

(** In verifyValidVersionForUpdate a transport error on the GET is not
    returned from: manual-mode Update panics. *)
Example WorkflowDef_Update_manual_transport_error :
  WorkflowDef_Update scripted_send
    (JsonDoc (VMap (list_to_map [("name", VString "w1"); ("version", float64_of_Z 1)]))) 3
    (MkClient [None] [])
  = (Panicked, MkClient [] [getRequest "w1"]).
Proof. reflexivity. Qed.

(** C4 as stated fails: the proposed manifest carries version 2 and
    equals the server's manifest, yet Create writes it; manual mode has no
    drift check. *)
Lemma manual_create_writes_equal_manifest :
  let planMap : gmap string value :=
    list_to_map [("name", VString "w1"); ("version", float64_of_Z 2)] in
  WorkflowDef_Create scripted_send (JsonDoc (VMap planMap))
    (MkClient [okResponse (VMap planMap); statusResponse StatusOK] [])
  = (StateSet 2,
     MkClient [] [getRequest "w1"; putRequest (<["version" := VInt32 2]> planMap)]) ∧
  ¬ manual_create_skips_equal_write.
Proof.
  split; [reflexivity|]. intros H.
  specialize (H Script scripted_send
                (MkClient [okResponse (VMap (list_to_map
                             [("name", VString "w1"); ("version", float64_of_Z 2)]));
                           statusResponse StatusOK] [])
                (list_to_map [("name", VString "w1"); ("version", float64_of_Z 2)])
                (list_to_map [("name", VString "w1"); ("version", float64_of_Z 2)])
                "w1" 2
                (MkResponse StatusOK
                   (JsonDoc (VMap (list_to_map
                      [("name", VString "w1"); ("version", float64_of_Z 2)]))) false)
                [statusResponse StatusOK]
                eq_refl eq_refl eq_refl eq_refl eq_refl).
  vm_compute in H. discriminate H.
Qed.

(** C4, amended. Create in manual mode (a valid integer "version" in the
    proposed manifest) applies no drift check. If the name is absent on
    the server the requested version is written as it is; if the name is
    present with version [cv], a requested version below [cv] fails with
    the version conflict and nothing is written, and otherwise the
    requested version is written, also when the manifests are equal after
    the clean-up. The written version is tracked when the PUT is accepted. *)
Theorem WorkflowDef_Create_manual_mode :
  ∀ (Server : Type) (send : Request → Server → option Response * Server)
    (c : Client Server) (planMap : gmap string value) name version r s1,
    getWorkflowNameFromManifest planMap = Ok name →
    getWorkflowVersionOptionalFromManifest planMap = Ok (Some version) →
    send (getRequest name) (server c) = (Some r, s1) →
    let res := WorkflowDef_Create send (JsonDoc (VMap planMap)) c in
    let c1 := MkClient s1 (sent c ++ [getRequest name]) in
    let put := putRequest (<["version" := VInt32 version]> (deleteAuditableFields planMap)) in
    let written :=
      sent (snd res) = sent c ++ [getRequest name; put] ∧
      if acceptedWrite (fst (send put s1)) then fst res = StateSet version
      else isFailed (fst res) = true in
    1 ≤ version ∧
    (StatusCode r = StatusNotFound → written) ∧
    (∀ cur cv,
       serverManifest r = Some cur →
       getWorkflowVersionFromManifest cur = Ok cv →
       if version <? cv
       then res = (Failed ["Found an existing workflow definition with a larger version"], c1)
       else written).
Proof.
  intros Server send c planMap name version r s1 Hname Hver Hsend.
  cbv zeta. split.
  - by apply getWorkflowVersionOptionalFromManifest_bounds in Hver as [? _].
  - apply (WorkflowDef_Create_manual send c planMap name version r s1 Hname Hver Hsend).
Qed.

Lemma WorkflowDef_Create_manual_mode_witness :
  let planMap : gmap string value :=
    list_to_map [("name", VString "w1"); ("version", float64_of_Z 3)] in
  sent (snd (WorkflowDef_Create scripted_send (JsonDoc (VMap planMap))
               (MkClient [statusResponse StatusNotFound; statusResponse StatusOK] [])))
  = [getRequest "w1"; putRequest (<["version" := VInt32 3]> planMap)].
Proof.
  cbv zeta.
  pose proof (WorkflowDef_Create_manual_mode Script scripted_send
                (MkClient [statusResponse StatusNotFound; statusResponse StatusOK] [])
                (list_to_map [("name", VString "w1"); ("version", float64_of_Z 3)])
                "w1" 3 (MkResponse StatusNotFound NotJson false)
                [statusResponse StatusOK] eq_refl eq_refl eq_refl) as H.
  cbv zeta in H. destruct H as (_ & Habsent & _).
  exact (proj1 (Habsent eq_refl)).
Defined.

(** ** Delete after a 500 *)

(** C5 as stated fails for the workflow resource: the DELETE of version 1
    is answered with 500 and every later GET with 404, yet Delete fails,
    and with the DELETE as its last request. *)
Lemma workflow_delete_fails_on_500 :
  WorkflowDef_Delete scripted_then_gone_send 2
    (JsonDoc (VMap {["name" := VString "w1"]}))
    (MkClient [okResponse (workflowDocument "w1" 1);
               statusResponse StatusInternalServerError] [])
  = (Failed ["HTTP Error"],
     MkClient [] [getRequest "w1"; deleteRequest "w1" 1]) ∧
  ¬ workflow_delete_disambiguates_500.
Proof.
  split; [reflexivity|]. intros H.
  specialize (H Script scripted_then_gone_send
                (MkClient [okResponse (workflowDocument "w1" 1);
                           statusResponse StatusInternalServerError] [])
                {["name" := VString "w1"]} "w1" 1
                (MkResponse StatusOK (JsonDoc (workflowDocument "w1" 1)) false)
                [statusResponse StatusInternalServerError] [] 0%nat
                eq_refl eq_refl eq_refl eq_refl).
  assert (Hgone : ∀ req, req_method req = MethodGet →
                    scripted_then_gone_send req []
                    = (statusResponse StatusNotFound, [])).
  { intros req Hreq. unfold scripted_then_gone_send, gone_send. by rewrite Hreq. }
  specialize (H Hgone). vm_compute in H. discriminate H.
Qed.

(** C5, amended. TaskDefResource.Delete: a 500 on the DELETE is followed
    by exactly one GET of the same path; if that GET is answered with 404
    the delete succeeds, otherwise (another status, or a transport error)
    the operation fails with the HTTP error. WorkflowDefResource.Delete has
    no such step: after any number of rounds that each deleted a version,
    any status other than 200 on the DELETE of the next version, 500
    included, fails the operation at once and no further request is
    issued. *)
Theorem Delete_after_500 :
  (∀ (Server : Type) (send : Request → Server → option Response * Server)
     (c : Client Server) (manifestMap : gmap string value) taskType r s1,
     getTaskTypeFromManifest manifestMap = Ok taskType →
     let delete := MkRequest MethodDelete (taskdefPath taskType) None in
     let get := MkRequest MethodGet (taskdefPath taskType) None in
     send delete (server c) = (Some r, s1) →
     StatusCode r = StatusInternalServerError →
     TaskDef_Delete send (JsonDoc (VMap manifestMap)) c
     = (match fst (send get s1) with
        | Some r' => if StatusCode r' =? StatusNotFound
                     then StateSet () else Failed ["HTTP Error"]
        | None => Failed ["HTTP Error"]
        end,
        MkClient (snd (send get s1)) (sent c ++ [delete; get]))) ∧
  (∀ (Server : Type) (send : Request → Server → option Response * Server)
     (c : Client Server) (manifestMap : gmap string value) name
     (versions : list Z) currentVersion s' v r1 s1 r2 s2 (fuel : nat),
     getWorkflowNameFromManifest manifestMap = Ok name →
     deleteRounds send name 0 (server c) versions currentVersion s' →
     send (getRequest name) s' = (Some r1, s1) →
     serverVersion r1 = Some v →
     currentVersion ≠ v →
     send (deleteRequest name v) s1 = (Some r2, s2) →
     StatusCode r2 ≠ StatusOK →
     WorkflowDef_Delete send (length versions + S fuel) (JsonDoc (VMap manifestMap)) c
     = (Failed ["HTTP Error"],
        MkClient s2 (sent c ++ roundsTrace name versions
                       ++ [getRequest name; deleteRequest name v]))).
Proof.
  split.
  - intros Server send c manifestMap taskType r s1 Hname delete get Hdel Hstatus.
    rewrite (TaskDef_Delete_status send c manifestMap taskType r s1 Hname Hdel).
    by rewrite Hstatus.
  - intros Server send c manifestMap name versions currentVersion s' v r1 s1 r2 s2 fuel.
    apply WorkflowDef_Delete_status_after_rounds.
Qed.

(** A task definition whose DELETE is answered with 500 and whose GET is
    answered with 404; and a workflow whose version 2 is deleted and whose
    DELETE of version 1 is answered with 500: the 404 that the server
    holds ready is never asked for. *)
Lemma Delete_after_500_witness :
  TaskDef_Delete scripted_send (JsonDoc (VMap {["name" := VString "t1"]}))
    (MkClient [statusResponse StatusInternalServerError;
               statusResponse StatusNotFound] [])
  = (StateSet (),
     MkClient [] [MkRequest MethodDelete (taskdefPath "t1") None;
                  MkRequest MethodGet (taskdefPath "t1") None]) ∧
  WorkflowDef_Delete scripted_send 2 (JsonDoc (VMap {["name" := VString "w1"]}))
    (MkClient [okResponse (workflowDocument "w1" 2); statusResponse StatusOK;
               okResponse (workflowDocument "w1" 1);
               statusResponse StatusInternalServerError;
               statusResponse StatusNotFound] [])
  = (Failed ["HTTP Error"],
     MkClient [statusResponse StatusNotFound]
              [getRequest "w1"; deleteRequest "w1" 2;
               getRequest "w1"; deleteRequest "w1" 1]).
Proof.
  split.
  - apply (proj1 Delete_after_500 Script scripted_send
             (MkClient [statusResponse StatusInternalServerError;
                        statusResponse StatusNotFound] [])
             {["name" := VString "t1"]} "t1"
             (MkResponse StatusInternalServerError NotJson false)
             [statusResponse StatusNotFound]); reflexivity.
  - assert (Hrounds :
      deleteRounds scripted_send "w1" 0
        [okResponse (workflowDocument "w1" 2); statusResponse StatusOK;
         okResponse (workflowDocument "w1" 1);
         statusResponse StatusInternalServerError;
         statusResponse StatusNotFound]
        [2] 2 [okResponse (workflowDocument "w1" 1);
               statusResponse StatusInternalServerError;
               statusResponse StatusNotFound]).
    { apply (deleteRounds_cons scripted_send "w1" 0 _ 2
               (MkResponse StatusOK (JsonDoc (workflowDocument "w1" 2)) false)
               [statusResponse StatusOK; okResponse (workflowDocument "w1" 1);
                statusResponse StatusInternalServerError;
                statusResponse StatusNotFound]
               (MkResponse StatusOK NotJson false)
               [okResponse (workflowDocument "w1" 1);
                statusResponse StatusInternalServerError;
                statusResponse StatusNotFound]);
        [reflexivity | reflexivity | discriminate | reflexivity | reflexivity |].
      apply deleteRounds_nil. }
    apply (proj2 Delete_after_500 Script scripted_send
             (MkClient [okResponse (workflowDocument "w1" 2); statusResponse StatusOK;
                        okResponse (workflowDocument "w1" 1);
                        statusResponse StatusInternalServerError;
                        statusResponse StatusNotFound] [])
             {["name" := VString "w1"]} "w1" [2] 2
             [okResponse (workflowDocument "w1" 1);
              statusResponse StatusInternalServerError;
              statusResponse StatusNotFound]
             1
             (MkResponse StatusOK (JsonDoc (workflowDocument "w1" 1)) false)
             [statusResponse StatusInternalServerError; statusResponse StatusNotFound]
             (MkResponse StatusInternalServerError NotJson false)
             [statusResponse StatusNotFound] 0%nat);
      [reflexivity | exact Hrounds | reflexivity | reflexivity | discriminate
      | reflexivity | discriminate].
Defined.

(** * Further properties of the code *)

(** ** The "version" field *)

Lemma int32_of_float64_integer (q : Q) (v : Z) :
  Qeq q (inject_Z v) → MinInt32 ≤ v ≤ MaxInt32 → int32_of_float64 q = v.
Proof.
  unfold Qeq, int32_of_float64, inject_Z. simpl. intros Hq Hv.
  rewrite Z.mul_1_r in Hq. rewrite Hq, Z.quot_mul by done.
  destruct (Z.leb_spec MinInt32 v); [|lia].
  by destruct (Z.leb_spec v MaxInt32); [|lia].
Qed.

Lemma Qeq_bool_floor_integer (q : Q) (v : Z) :
  Qeq q (inject_Z v) → Qeq_bool q (inject_Z (Qfloor q)) = true.
Proof.
  intros Hq. apply Qeq_bool_iff. rewrite Hq at 2. by rewrite Qfloor_Z.
Qed.

(** What getWorkflowVersionOptionalFromManifest makes of the "version"
    entry: no entry is the auto mode; a number whose value is an integer
    between 1 and the largest int32 is that version; an integer below 1 is
    refused as smaller than 1; a number that is not an integer and a value
    that is not a number are refused as not an int. *)
Theorem getWorkflowVersionOptionalFromManifest_cases (manifestMap : gmap string value) :
  let res := getWorkflowVersionOptionalFromManifest manifestMap in
  match manifestMap !! "version" with
  | None => res = Ok None
  | Some (VFloat64 q) =>
      (∀ v, Qeq q (inject_Z v) → 1 ≤ v ≤ MaxInt32 → res = Ok (Some v)) ∧
      (∀ v, Qeq q (inject_Z v) → MinInt32 ≤ v < 1 →
            res = Err "'version' is smaller than 1") ∧
      (¬ Qeq q (inject_Z (Qfloor q)) → res = Err "'version' parameter must be int")
  | Some _ => res = Err "'version' parameter must be int"
  end.
Proof.
  unfold getWorkflowVersionOptionalFromManifest.
  destruct (manifestMap !! "version") as [[| |q| | | |]|]; try done.
  cbv zeta. split; [|split].
  - intros v Hq Hv. rewrite (Qeq_bool_floor_integer q v Hq). simpl.
    rewrite (int32_of_float64_integer q v Hq) by (unfold MinInt32; lia).
    by destruct (Z.ltb_spec v 1); [lia|].
  - intros v Hq Hv. rewrite (Qeq_bool_floor_integer q v Hq). simpl.
    rewrite (int32_of_float64_integer q v Hq) by (unfold MaxInt32; lia).
    by destruct (Z.ltb_spec v 1); [|lia].
  - intros Hq. destruct (Qeq_bool q (inject_Z (Qfloor q))) eqn:Hb; [|done].
    by apply Qeq_bool_iff in Hb.
Qed.

Lemma getWorkflowVersionOptionalFromManifest_cases_witness :
  getWorkflowVersionOptionalFromManifest {["version" := VFloat64 (6 # 2)]} = Ok (Some 3) ∧
  getWorkflowVersionOptionalFromManifest {["version" := VFloat64 (0 # 1)]}
  = Err "'version' is smaller than 1" ∧
  getWorkflowVersionOptionalFromManifest {["version" := VFloat64 (3 # 2)]}
  = Err "'version' parameter must be int".
Proof.
  pose proof (getWorkflowVersionOptionalFromManifest_cases
                {["version" := VFloat64 (6 # 2)]}) as H1.
  pose proof (getWorkflowVersionOptionalFromManifest_cases
                {["version" := VFloat64 (0 # 1)]}) as H2.
  pose proof (getWorkflowVersionOptionalFromManifest_cases
                {["version" := VFloat64 (3 # 2)]}) as H3.
  split; [|split].
  - apply (proj1 H1 3); [reflexivity|unfold MaxInt32; lia].
  - apply (proj1 (proj2 H2) 0); [reflexivity|unfold MinInt32; lia].
  - apply (proj2 (proj2 H3)). unfold Qeq. simpl. lia.
Defined.

(** ** The "name" field *)

(** A manifest passes the name validator exactly when the resources can
    read its name: after validation Create, Read, Update and Delete never
    fail with the invalid-manifest error on "name". *)
Theorem ValidateString_getWorkflowNameFromManifest (manifestMap : gmap string value) :
  ValidateString (TfValue (JsonDoc (VMap manifestMap))) = [] ↔
  ∃ name, getWorkflowNameFromManifest manifestMap = Ok name.
Proof.
  unfold ValidateString, getWorkflowNameFromManifest. simpl.
  destruct (manifestMap !! "name") as [[| | |s| | |]|];
    try (split; [discriminate|intros [? [=]]]).
  destruct (String.eqb s EmptyString); split; try discriminate; eauto.
  intros [? [=]].
Qed.

Lemma cleanupDeletes_name D (name : string) :
  D !! "name" = None → name ≠ EmptyString →
  cleanupDeletes D "name" (VString name) = false.
Proof.
  intros HD Hname. unfold cleanupDeletes, getPrimitiveDefaultValue. rewrite HD.
  simpl. by apply String.eqb_neq.
Qed.

Lemma getWorkflowNameFromManifest_Ok (m : gmap string value) name :
  getWorkflowNameFromManifest m = Ok name ↔
  m !! "name" = Some (VString name) ∧ name ≠ EmptyString.
Proof.
  unfold getWorkflowNameFromManifest.
  destruct (m !! "name") as [[| | |s| | |]|];
    try (split; [discriminate|intros [[=] _]]).
  destruct (String.eqb_spec s EmptyString) as [->|Hne].
  - split; [discriminate|]. by intros [[= <-] ?].
  - split; [intros [= <-]; done|]. by intros [[= <-] _].
Qed.

Lemma workflowDefCleanup_lookup_ne (m : gmap string value) k :
  k ≠ "tasks" → workflowDefCleanup m !! k = workflowDocCleanup m !! k.
Proof.
  intros Hk. rewrite workflowDefCleanup_unfold.
  destruct (workflowDocCleanup m !! "tasks") as [[| | | | |arr|]|]; try done.
  by rewrite lookup_insert_ne.
Qed.

(** The clean-up passes keep a valid name: the cleaned manifest that
    auto-mode Create writes, and the cleaned manifests the plan check
    compares, name the same object as the manifest they come from. *)
Theorem cleanup_keeps_name (manifestMap : gmap string value) name :
  getWorkflowNameFromManifest manifestMap = Ok name →
  getWorkflowNameFromManifest (workflowDefCleanup manifestMap) = Ok name ∧
  getTaskTypeFromManifest (cleanupManifestDefaults manifestMap defaultTaskDefValues)
  = Ok name.
Proof.
  intros Hname. pose proof Hname as [Hlook Hne]%getWorkflowNameFromManifest_Ok.
  split; apply getWorkflowNameFromManifest_Ok; (split; [|done]).
  - rewrite workflowDefCleanup_lookup_ne by done.
    rewrite workflowDocCleanup_lookup, Hlook.
    assert (bool_decide ("name" ∈ auditableFieldsToIgnore) = false) as ->
      by reflexivity.
    by rewrite cleanupDeletes_name.
  - rewrite cleanupManifestDefaults_lookup, Hlook.
    by rewrite cleanupDeletes_name.
Qed.

Lemma cleanup_keeps_name_witness :
  getWorkflowNameFromManifest
    (workflowDefCleanup (list_to_map [("name", VString "w1"); ("restartable", VBool true)]))
  = Ok "w1".
Proof.
  assert (Hname : getWorkflowNameFromManifest
                    (list_to_map [("name", VString "w1"); ("restartable", VBool true)])
                  = Ok "w1") by (vm_compute; reflexivity).
  pose proof (cleanup_keeps_name _ "w1" Hname) as [H _].
  vm_compute in H. vm_compute. exact H.
Defined.

(** ** What the clean-up leaves *)

(** The clean-up only ever deletes: every entry of the cleaned manifest is
    an entry of the original, and no entry left is null, an empty map or
    an empty slice. *)
Theorem cleanupManifestDefaults_result (manifestMap D : gmap string value) :
  cleanupManifestDefaults manifestMap D ⊆ manifestMap ∧
  ∀ key v, cleanupManifestDefaults manifestMap D !! key = Some v →
           v ≠ VNil ∧ v ≠ VMap ∅ ∧ v ≠ VSlice [].
Proof.
  split.
  - apply map_subseteq_spec. intros k v. rewrite cleanupManifestDefaults_lookup.
    destruct (manifestMap !! k) as [x|]; [|done].
    by destruct (cleanupDeletes D k x).
  - intros k v. rewrite cleanupManifestDefaults_lookup.
    destruct (manifestMap !! k) as [x|]; [|done].
    destruct (cleanupDeletes D k x) eqn:Hd; [done|]. intros [= <-].
    repeat split; intros ->; vm_compute in Hd; discriminate.
Qed.

Lemma cleanupManifestDefaults_result_witness :
  let m : gmap string value :=
    list_to_map [("name", VString "t1"); ("inputKeys", VSlice []);
                 ("description", VNil)] in
  cleanupManifestDefaults m defaultTaskDefValues !! "name" = Some (VString "t1") ∧
  VString "t1" ≠ VNil.
Proof.
  intros m.
  assert (H : cleanupManifestDefaults m defaultTaskDefValues !! "name"
              = Some (VString "t1")) by (vm_compute; reflexivity).
  split; [exact H|].
  exact (proj1 (proj2 (cleanupManifestDefaults_result m defaultTaskDefValues)
                      "name" (VString "t1") H)).
Defined.

(** ** What the merge leaves *)

(** The merge only ever adds or overwrites: the merged map has exactly
    the keys of both maps, and an entry whose key the source map lacks is
    unchanged. *)
Theorem mergeManifestMaps_dom (fromMap toMap : gmap string value) :
  dom (mergeManifestMaps fromMap toMap) = dom fromMap ∪ dom toMap ∧
  ∀ k, fromMap !! k = None → mergeManifestMaps fromMap toMap !! k = toMap !! k.
Proof.
  split; [|intros k; apply mergeManifestMaps_other].
  apply set_eq. intros k. rewrite elem_of_union, !elem_of_dom.
  rewrite mergeManifestMaps_lookup.
  destruct (fromMap !! k) as [fv|] eqn:Hf.
  - split; [intros _; left; eauto|]. intros _.
    destruct (negb _ || _) eqn:Hc; [eauto|].
    apply orb_false_iff in Hc as [Hc _]. apply negb_false_iff in Hc.
    by apply bool_decide_eq_true in Hc.
  - split; [by right|]. intros [[? [=]]|?]; done.
Qed.

(** Merging a map into a map that already contains all its entries
    changes nothing: reading back what was stored causes no drift. *)
Lemma mergeManifestMaps_subseteq (fromMap toMap : gmap string value) :
  fromMap ⊆ toMap → mergeManifestMaps fromMap toMap = toMap.
Proof.
  intros Hsub. apply map_eq. intros k. rewrite mergeManifestMaps_lookup.
  destruct (fromMap !! k) as [fv|] eqn:Hf; [|done].
  rewrite (lookup_weaken _ _ _ _ Hf Hsub). by destruct (negb _ || _).
Qed.

(** The merge is idempotent: merging the same source a second time
    changes nothing. *)
Theorem mergeManifestMaps_idempotent (fromMap toMap : gmap string value) :
  mergeManifestMaps fromMap (mergeManifestMaps fromMap toMap)
  = mergeManifestMaps fromMap toMap.
Proof.
  apply map_eq. intros k. rewrite !mergeManifestMaps_lookup.
  destruct (fromMap !! k) as [fv|] eqn:Hf; [|done].
  destruct (isPrimitiveValue fv) eqn:Hp.
  - by rewrite !orb_true_r.
  - rewrite !orb_false_r.
    destruct (bool_decide (is_Some (toMap !! k))) eqn:Hto; simpl.
    + by rewrite Hto.
    + done.
Qed.

(** ** The plan check and fields that do not count *)

Lemma workflowDefCleanup_insert_auditable (m : gmap string value) f x :
  f ∈ auditableFieldsToIgnore →
  workflowDefCleanup (<[f := x]> m) = workflowDefCleanup m.
Proof.
  intros Hf.
  assert (Hdoc : workflowDocCleanup (<[f := x]> m) = workflowDocCleanup m).
  { apply map_eq. intros k. rewrite !workflowDocCleanup_lookup.
    case_bool_decide as Hk; [done|].
    rewrite lookup_insert_ne; [done|]. by intros ->. }
  by rewrite !workflowDefCleanup_unfold, Hdoc.
Qed.

(** For the workflow class a server-owned field alone is never a change:
    a plan that differs from the state in such a field only is replaced by
    the state. *)
Theorem WorkflowDef_ModifyPlan_ignores_auditable (m : gmap string value) f x :
  f ∈ auditableFieldsToIgnore →
  WorkflowDef_ModifyPlan (Some (TfValue (JsonDoc (VMap (<[f := x]> m)))))
                         (Some (TfValue (JsonDoc (VMap m)))) = UseState ∧
  WorkflowDef_ModifyPlan (Some (TfValue (JsonDoc (VMap m))))
                         (Some (TfValue (JsonDoc (VMap (<[f := x]> m))))) = UseState.
Proof.
  intros Hf. unfold WorkflowDef_ModifyPlan. simpl.
  rewrite (workflowDefCleanup_insert_auditable m f x Hf).
  by rewrite DeepEqualMap_refl.
Qed.

Lemma WorkflowDef_ModifyPlan_ignores_auditable_witness :
  WorkflowDef_ModifyPlan
    (Some (TfValue (JsonDoc (VMap (<["updateTime" := float64_of_Z 1700000000]>
                                     {["name" := VString "w1"]})))))
    (Some (TfValue (JsonDoc (VMap {["name" := VString "w1"]})))) = UseState.
Proof.
  apply (WorkflowDef_ModifyPlan_ignores_auditable
           {["name" := VString "w1"]} "updateTime" (float64_of_Z 1700000000)).
  unfold auditableFieldsToIgnore. rewrite !elem_of_cons. auto.
Defined.

(** A field at its default is never a change: a plan that adds to the
    state a field the state lacks, with the primitive value the default
    table has for it, is replaced by the state. *)
Theorem modifyPlanWith_default_field (D m : gmap string value) k d :
  D !! k = Some d → isPrimitiveValue d = true → m !! k = None →
  modifyPlanWith (λ x, cleanupManifestDefaults x D)
    (Some (TfValue (JsonDoc (VMap (<[k := d]> m)))))
    (Some (TfValue (JsonDoc (VMap m)))) = UseState.
Proof.
  intros HD Hprim Hm. simpl.
  assert (cleanupManifestDefaults (<[k := d]> m) D = cleanupManifestDefaults m D) as ->.
  { apply map_eq. intros j. rewrite !cleanupManifestDefaults_lookup.
    destruct (decide (k = j)) as [<-|Hne].
    - rewrite lookup_insert_eq, Hm.
      rewrite (cleanupDeletes_primitive D k d Hprim).
      unfold spec_resolvedDefault. rewrite HD. by rewrite DeepEqual_refl.
    - by rewrite lookup_insert_ne. }
  by rewrite DeepEqualMap_refl.
Qed.

Lemma modifyPlanWith_default_field_witness :
  TaskDef_ModifyPlan
    (Some (TfValue (JsonDoc (VMap (<["retryCount" := float64_of_Z 3]>
                                     {["name" := VString "t1"]})))))
    (Some (TfValue (JsonDoc (VMap {["name" := VString "t1"]})))) = UseState.
Proof.
  apply (modifyPlanWith_default_field defaultTaskDefValues
           {["name" := VString "t1"]} "retryCount" (float64_of_Z 3));
    vm_compute; reflexivity.
Defined.

(** ** The endpoint and the request URL *)

Lemma substring_all (s : string) : String.substring 0 (String.length s) s = s.
Proof. induction s as [|a s IH]; simpl; [done|by rewrite IH]. Qed.

Lemma substring_app_prefix (s t : string) :
  String.substring 0 (String.length s) (s +:+ t) = s.
Proof.
  induction s as [|a s IH]; simpl; [by destruct t|by rewrite IH].
Qed.

Lemma substring_app_suffix (s t : string) :
  String.substring (String.length s) (String.length t) (s +:+ t) = t.
Proof. induction s as [|a s IH]; simpl; [apply substring_all|done]. Qed.

Lemma length_app_string (s t : string) :
  String.length (s +:+ t) = (String.length s + String.length t)%nat.
Proof. induction s as [|a s IH]; simpl; [done|by rewrite IH]. Qed.

(** TrimSuffix removes a suffix that is there, once. *)
Lemma TrimSuffix_app (s suffix : string) : TrimSuffix (s +:+ suffix) suffix = s.
Proof.
  unfold TrimSuffix, HasSuffix. rewrite length_app_string.
  replace (String.length s + String.length suffix - String.length suffix)%nat
    with (String.length s) by lia.
  rewrite substring_app_suffix, String.eqb_refl, substring_app_prefix.
  by destruct (Nat.leb_spec (String.length suffix)
                 (String.length s + String.length suffix)); [|lia].
Qed.

(** An endpoint configured with a trailing slash gives the same request
    URLs as the endpoint without it: exactly one slash separates endpoint
    and path. Only one trailing slash is removed. *)
Theorem requestURL_trailing_slash (Endpoint path : string) :
  requestURL (clientEndpoint (Endpoint +:+ "/")) path = Endpoint +:+ "/" +:+ path ∧
  clientEndpoint (Endpoint +:+ "//") = Endpoint +:+ "/".
Proof.
  unfold requestURL, clientEndpoint. split.
  - by rewrite TrimSuffix_app.
  - replace (Endpoint +:+ "//") with ((Endpoint +:+ "/") +:+ "/").
    + apply TrimSuffix_app.
    + induction Endpoint as [|a e IH]; [done|].
      change (String a ((e +:+ "/") +:+ "/") = String a (e +:+ "//")).
      by f_equal.
Qed.

(** ** Read: server-owned fields and the version *)

Lemma pinAuditableFields_lookup (cur st : gmap string value) k :
  pinAuditableFields cur st !! k =
  if bool_decide (k ∈ auditableFieldsToIgnore) then st !! k else cur !! k.
Proof.
  unfold pinAuditableFields. generalize auditableFieldsToIgnore as l.
  intros l. revert cur. induction l as [|f l IH]; intros cur.
  - cbn [foldl]. case_bool_decide as H; [by apply elem_of_nil in H|done].
  - cbn [foldl]. rewrite IH.
    assert (Hstep : (match st !! f with
                     | Some cValue => <[f:=cValue]> (delete f cur)
                     | None => delete f cur
                     end) !! k = if decide (k = f) then st !! k else cur !! k).
    { destruct (decide (k = f)) as [->|Hkf].
      - destruct (st !! f); [apply lookup_insert_eq|apply lookup_delete_eq].
      - destruct (st !! f); [rewrite lookup_insert_ne by done|];
          by rewrite lookup_delete_ne. }
    rewrite Hstep. repeat case_bool_decide; repeat case_decide; try done;
      exfalso; rewrite elem_of_cons in *; tauto.
Qed.

Lemma workflowDefMerge_lookup_ne (cur st : gmap string value) k :
  k ≠ "tasks" → workflowDefMerge cur st !! k = mergeManifestMaps cur st !! k.
Proof.
  intros Hk. unfold workflowDefMerge.
  destruct (cur !! "tasks") as [[| | | | |ca|]|]; try done.
  destruct (mergeManifestMaps cur st !! "tasks") as [[| | | | |sa|]|]; try done.
  by rewrite lookup_insert_ne.
Qed.

Lemma auditable_not_tasks f : f ∈ auditableFieldsToIgnore → f ≠ "tasks".
Proof.
  unfold auditableFieldsToIgnore. rewrite !elem_of_cons, elem_of_nil.
  intros [->|[->|[->|[->|[]]]]]; discriminate.
Qed.

Lemma taskDefCleanupAndMerge_pinned (cur st : gmap string value) f :
  f ∈ auditableFieldsToIgnore →
  taskDefCleanupAndMerge (pinAuditableFields cur st) st !! f = st !! f.
Proof.
  intros Hf. unfold taskDefCleanupAndMerge.
  rewrite mergeManifestMaps_lookup, cleanupManifestDefaults_lookup.
  rewrite pinAuditableFields_lookup, bool_decide_eq_true_2 by done.
  destruct (st !! f) as [v|]; [|done].
  destruct (cleanupDeletes _ f v); [done|]. by destruct (negb _ || _).
Qed.

Lemma workflowDefCleanupAndMerge_pinned (cur st : gmap string value) f :
  f ∈ auditableFieldsToIgnore →
  workflowDefCleanupAndMerge cur st !! f = st !! f.
Proof.
  intros Hf. pose proof (auditable_not_tasks f Hf) as Hne.
  unfold workflowDefCleanupAndMerge.
  rewrite workflowDefMerge_lookup_ne, mergeManifestMaps_lookup by done.
  rewrite workflowDefCleanup_lookup_ne, workflowDocCleanup_lookup by done.
  by rewrite bool_decide_eq_true_2.
Qed.

(** Read never takes a server-owned field from the server: in the manifest
    either Read writes to the state, createTime, updateTime, createdBy and
    updatedBy are what the prior state has for them, present or absent. *)
Theorem Read_pins_auditable_fields :
  ∀ (Server : Type) (send : Request → Server → option Response * Server)
    (c c' : Client Server) (stateManifestMap manifestMap' : gmap string value) f,
    f ∈ auditableFieldsToIgnore →
    (TaskDef_Read send (JsonDoc (VMap stateManifestMap)) c = (StateSet manifestMap', c') →
       manifestMap' !! f = stateManifestMap !! f) ∧
    (∀ version,
       WorkflowDef_Read send (JsonDoc (VMap stateManifestMap)) c
       = (StateSet (manifestMap', version), c') →
       manifestMap' !! f = stateManifestMap !! f).
Proof.
  intros Server send c c' st m' f Hf. split.
  - unfold TaskDef_Read. cbn [unmarshalMap].
    destruct (getTaskTypeFromManifest st); [|discriminate].
    destruct (client_do _ _ _ _ _) as [[r|] c1]; [|discriminate].
    destruct (StatusCode r =? StatusNotFound); [discriminate|].
    destruct (negb _); [discriminate|].
    destruct (ReadAllErr r); [discriminate|].
    destruct (unmarshalMap (Body r)) as [cur|]; [|discriminate].
    destruct (_ && _); [discriminate|].
    intros [= <- _]. by apply taskDefCleanupAndMerge_pinned.
  - intros version. unfold WorkflowDef_Read. cbn [unmarshalMap].
    destruct (getWorkflowNameFromManifest st); [|discriminate].
    destruct (getWorkflowVersionOptionalFromManifest st); [|discriminate].
    destruct (client_do _ _ _ _ _) as [[r|] c1]; [|discriminate].
    destruct (StatusCode r =? StatusNotFound); [discriminate|].
    destruct (negb _); [discriminate|].
    destruct (ReadAllErr r); [discriminate|].
    destruct (unmarshalMap (Body r)) as [cur|]; [|discriminate].
    destruct (getWorkflowVersionFromManifest cur); [|discriminate].
    intros [= <- _ _]. by apply workflowDefCleanupAndMerge_pinned.
Qed.

Lemma Read_pins_auditable_fields_witness :
  let st : gmap string value :=
    list_to_map [("name", VString "t1"); ("createTime", float64_of_Z 5)] in
  let cur : gmap string value :=
    list_to_map [("name", VString "t1"); ("createTime", float64_of_Z 9);
                 ("updateTime", float64_of_Z 9)] in
  let m' := taskDefCleanupAndMerge (pinAuditableFields cur st) st in
  TaskDef_Read scripted_send (JsonDoc (VMap st)) (MkClient [okResponse (VMap cur)] [])
  = (StateSet m', MkClient [] [MkRequest MethodGet (taskdefPath "t1") None]) ∧
  m' !! "updateTime" = st !! "updateTime".
Proof.
  intros st cur m'.
  assert (H : TaskDef_Read scripted_send (JsonDoc (VMap st))
                (MkClient [okResponse (VMap cur)] [])
              = (StateSet m', MkClient [] [MkRequest MethodGet (taskdefPath "t1") None]))
    by (vm_compute; reflexivity).
  split; [exact H|].
  assert (Hf : "updateTime" ∈ auditableFieldsToIgnore)
    by (unfold auditableFieldsToIgnore; rewrite !elem_of_cons; auto).
  exact (proj1 (Read_pins_auditable_fields Script scripted_send
                  (MkClient [okResponse (VMap cur)] [])
                  (MkClient [] [MkRequest MethodGet (taskdefPath "t1") None])
                  st m' "updateTime" Hf) H).
Defined.

Lemma version_number_not_zero (m : gmap string value) q v :
  m !! "version" = Some (VFloat64 q) →
  getWorkflowVersionOptionalFromManifest m = Ok (Some v) →
  Qeq_bool q (inject_Z 0) = false.
Proof.
  unfold getWorkflowVersionOptionalFromManifest. intros ->.
  destruct (negb _); [discriminate|].
  destruct (Z.ltb_spec (int32_of_float64 q) 1) as [|Hge]; [discriminate|]. intros _.
  destruct (Qeq_bool q (inject_Z 0)) eqn:Hq; [|done].
  apply Qeq_bool_iff in Hq.
  rewrite (int32_of_float64_integer q 0 Hq) in Hge by (unfold MinInt32, MaxInt32; lia).
  lia.
Qed.

Lemma getWorkflowVersionOptionalFromManifest_ext (m m' : gmap string value) :
  m' !! "version" = m !! "version" →
  getWorkflowVersionOptionalFromManifest m' = getWorkflowVersionOptionalFromManifest m.
Proof. unfold getWorkflowVersionOptionalFromManifest. by intros ->. Qed.

Lemma getWorkflowVersionOptionalFromManifest_None (m : gmap string value) :
  getWorkflowVersionOptionalFromManifest m = Ok None ↔ m !! "version" = None.
Proof.
  split; [|apply getWorkflowVersionOptionalFromManifest_absent].
  unfold getWorkflowVersionOptionalFromManifest.
  destruct (m !! "version") as [[| |q| | | |]|]; try done.
  destruct (negb _); [done|]. by destruct (_ <? _).
Qed.

(** Read keeps the version mode of the stored manifest and tracks the
    server's latest version. The tracked version is the version of the
    document the GET returned. A stored manifest without "version" stays
    without it; a stored manifest with "version" gets the server's, so
    that the manifest's version and the tracked version agree. *)
Theorem WorkflowDef_Read_version :
  ∀ (Server : Type) (send : Request → Server → option Response * Server)
    (c c' : Client Server) (stateManifestMap manifestMap' : gmap string value) version,
    WorkflowDef_Read send (JsonDoc (VMap stateManifestMap)) c
    = (StateSet (manifestMap', version), c') →
    (∃ name r,
       getWorkflowNameFromManifest stateManifestMap = Ok name ∧
       send (getRequest name) (server c) = (Some r, server c') ∧
       sent c' = sent c ++ [getRequest name] ∧
       serverVersion r = Some version) ∧
    match stateManifestMap !! "version" with
    | None => manifestMap' !! "version" = None
    | Some _ => getWorkflowVersionOptionalFromManifest manifestMap' = Ok (Some version)
    end.
Proof.
  intros Server send c c' st m' version. unfold WorkflowDef_Read. cbn [unmarshalMap].
  destruct (getWorkflowNameFromManifest st) as [name|] eqn:Hname; [|discriminate].
  destruct (getWorkflowVersionOptionalFromManifest st) as [sv|] eqn:Hsv; [|discriminate].
  unfold client_do. fold (getRequest name).
  destruct (send (getRequest name) (server c)) as [[r|] s1] eqn:Hsend; [|discriminate].
  destruct (Z.eqb_spec (StatusCode r) StatusNotFound) as [|Hnf]; [discriminate|].
  destruct (Z.eqb_spec (StatusCode r) StatusOK) as [Hok|]; [|discriminate]. simpl negb.
  cbv iota.
  destruct (ReadAllErr r) eqn:Hread; [discriminate|].
  destruct (unmarshalMap (Body r)) as [cur|] eqn:Hbody; [|discriminate].
  destruct (getWorkflowVersionFromManifest cur) as [v|] eqn:Hv; [|discriminate].
  intros [= <- <- <-]. split.
  - exists name, r. repeat split; try done.
    unfold serverVersion, serverManifest. rewrite Hok, Hread. simpl.
    by rewrite Hbody, Hv.
  - assert (Hlook : ∀ x, workflowDefCleanupAndMerge x st !! "version"
                         = match workflowDocCleanup x !! "version" with
                           | Some fv =>
                               if negb (bool_decide (is_Some (st !! "version")))
                                  || isPrimitiveValue fv
                               then Some fv else st !! "version"
                           | None => st !! "version"
                           end).
    { intros x. unfold workflowDefCleanupAndMerge.
      rewrite workflowDefMerge_lookup_ne, mergeManifestMaps_lookup by done.
      by rewrite workflowDefCleanup_lookup_ne by done. }
    destruct (st !! "version") as [x|] eqn:Hst.
    + destruct sv as [sv|];
        [|apply getWorkflowVersionOptionalFromManifest_None in Hsv; congruence].
      assert (Hcur : getWorkflowVersionOptionalFromManifest cur = Ok (Some v)).
      { unfold getWorkflowVersionFromManifest in Hv.
        by destruct (getWorkflowVersionOptionalFromManifest cur) as [[?|]|];
          simplify_eq. }
      rewrite <- Hcur. apply getWorkflowVersionOptionalFromManifest_ext.
      rewrite Hlook, workflowDocCleanup_lookup, pinAuditableFields_lookup.
      assert (bool_decide ("version" ∈ auditableFieldsToIgnore) = false) as ->
        by reflexivity.
      unfold getWorkflowVersionOptionalFromManifest in Hcur.
      destruct (cur !! "version") as [[| |q| | | |]|] eqn:Hq; try discriminate.
      pose proof (version_number_not_zero cur q v Hq) as Hnz.
      unfold cleanupDeletes, getPrimitiveDefaultValue.
      assert (defaultWorkflowDefValues !! "version" = None) as -> by reflexivity.
      simpl. rewrite Hnz; [done|].
      unfold getWorkflowVersionOptionalFromManifest. by rewrite Hq.
    + destruct sv as [sv|].
      { unfold getWorkflowVersionOptionalFromManifest in Hsv. by rewrite Hst in Hsv. }
      cbv iota.
      rewrite Hlook, workflowDocCleanup_lookup.
      assert (bool_decide ("version" ∈ auditableFieldsToIgnore) = false) as ->
        by reflexivity.
      by rewrite lookup_delete_eq.
Qed.

Lemma WorkflowDef_Read_version_witness :
  let st : gmap string value :=
    list_to_map [("name", VString "w1"); ("version", float64_of_Z 1)] in
  let m' := workflowDefCleanupAndMerge
              (pinAuditableFields (<["name" := VString "w1"]>
                                     (<["version" := float64_of_Z 3]> ∅)) st) st in
  WorkflowDef_Read scripted_send (JsonDoc (VMap st))
    (MkClient [okResponse (workflowDocument "w1" 3)] [])
  = (StateSet (m', 3), MkClient [] [getRequest "w1"]) ∧
  getWorkflowVersionOptionalFromManifest m' = Ok (Some 3).
Proof.
  intros st m'.
  assert (H : WorkflowDef_Read scripted_send (JsonDoc (VMap st))
                (MkClient [okResponse (workflowDocument "w1" 3)] [])
              = (StateSet (m', 3), MkClient [] [getRequest "w1"]))
    by (vm_compute; reflexivity).
  split; [exact H|].
  pose proof (proj2 (WorkflowDef_Read_version Script scripted_send
                       (MkClient [okResponse (workflowDocument "w1" 3)] [])
                       (MkClient [] [getRequest "w1"]) st m' 3 H)) as H2.
  vm_compute in H2. vm_compute. exact H2.
Defined.

(** ** Import followed by Read *)

Lemma mergeTasks_same (tasks : list value) : mergeTasks tasks tasks = tasks.
Proof.
  induction tasks as [|t tasks IH]; [done|]. cbn [mergeTasks]. rewrite IH.
  destruct t; try done. by rewrite mergeManifestMaps_subseteq.
Qed.

Lemma workflowDefMerge_into_name (cur : gmap string value) ID :
  cur !! "name" = Some (VString ID) →
  workflowDefMerge cur {["name" := VString ID]} = cur.
Proof.
  intros Hname.
  assert (Hmerge : mergeManifestMaps cur {["name" := VString ID]} = cur).
  { apply map_eq. intros k. rewrite mergeManifestMaps_lookup.
    destruct (decide (k = "name")) as [->|Hk].
    - by rewrite Hname, lookup_singleton_eq.
    - rewrite lookup_singleton_ne by done.
      destruct (cur !! k); [|done]. by rewrite bool_decide_eq_false_2 by by intros [? ?]. }
  unfold workflowDefMerge. rewrite Hmerge.
  destruct (cur !! "tasks") as [[| | | | |ca|]|] eqn:Htasks; try done.
  rewrite mergeTasks_same. by apply insert_id.
Qed.

Lemma workflowDefCleanup_deleteAuditableFields (m : gmap string value) :
  workflowDefCleanup (deleteAuditableFields m) = workflowDefCleanup m.
Proof.
  assert (Hdoc : workflowDocCleanup (deleteAuditableFields m) = workflowDocCleanup m).
  { apply map_eq. intros k.
    rewrite !workflowDocCleanup_lookup, deleteAuditableFields_lookup.
    by case_bool_decide. }
  by rewrite !workflowDefCleanup_unfold, Hdoc.
Qed.

Lemma pinAuditableFields_name_only (cur : gmap string value) ID :
  pinAuditableFields cur {["name" := VString ID]} = deleteAuditableFields cur.
Proof.
  apply map_eq. intros k.
  rewrite pinAuditableFields_lookup, deleteAuditableFields_lookup.
  case_bool_decide as Hk; [|done].
  apply lookup_singleton_ne. intros <-. revert Hk.
  unfold auditableFieldsToIgnore. rewrite !elem_of_cons, elem_of_nil.
  intros [?|[?|[?|[?|[]]]]]; discriminate.
Qed.

Lemma workflowDefCleanup_delete_version_deleteAuditableFields (m : gmap string value) :
  workflowDefCleanup (delete "version" (deleteAuditableFields m))
  = workflowDefCleanup (delete "version" m).
Proof.
  rewrite <- (workflowDefCleanup_deleteAuditableFields (delete "version" m)).
  f_equal. apply map_eq. intros k.
  rewrite !deleteAuditableFields_lookup, !lookup_delete, deleteAuditableFields_lookup.
  case_decide; by case_bool_decide.
Qed.

(** After ImportState the first Read stores the server's manifest in
    cleaned form: for an imported ID that the server knows under that
    name, Read tracks the server's version and stores the server's
    manifest without "version" and server-owned fields and cleaned of
    defaults, the very manifest auto-mode Create compares a proposal with. *)
Theorem ImportState_then_Read :
  ∀ (Server : Type) (send : Request → Server → option Response * Server)
    (c : Client Server) (ID : string) r s1 (cur : gmap string value) version,
    ID ≠ EmptyString →
    send (getRequest ID) (server c) = (Some r, s1) →
    serverManifest r = Some cur →
    cur !! "name" = Some (VString ID) →
    getWorkflowVersionFromManifest cur = Ok version →
    WorkflowDef_Read send (ImportState ID) c
    = (StateSet (workflowDefCleanup (delete "version" cur), version),
       MkClient s1 (sent c ++ [getRequest ID])).
Proof.
  intros Server send c ID r s1 cur version HID Hsend Hcur Hname Hv.
  apply serverManifest_inv in Hcur as (H404 & Hread & H200 & Hbody).
  unfold WorkflowDef_Read, ImportState. cbn [unmarshalMap].
  assert (getWorkflowNameFromManifest {["name" := VString ID]} = Ok ID) as ->.
  { apply getWorkflowNameFromManifest_Ok. split; [apply lookup_singleton_eq|done]. }
  rewrite (getWorkflowVersionOptionalFromManifest_absent {["name" := VString ID]})
    by done.
  rewrite (client_do_get _ _ _ _ _ Hsend), H404, H200, Hread, Hbody, Hv. simpl.
  do 2 f_equal. f_equal.
  rewrite pinAuditableFields_name_only. unfold workflowDefCleanupAndMerge.
  rewrite workflowDefCleanup_delete_version_deleteAuditableFields.
  apply workflowDefMerge_into_name.
  rewrite workflowDefCleanup_lookup_ne, workflowDocCleanup_lookup by done.
  assert (bool_decide ("name" ∈ auditableFieldsToIgnore) = false) as -> by reflexivity.
  rewrite lookup_delete_ne, Hname by done.
  by rewrite cleanupDeletes_name.
Qed.

Lemma ImportState_then_Read_witness :
  let cur : gmap string value :=
    list_to_map [("name", VString "w1"); ("version", float64_of_Z 2);
                 ("restartable", VBool true); ("createTime", float64_of_Z 7);
                 ("description", VString "d")] in
  WorkflowDef_Read scripted_send (ImportState "w1")
    (MkClient [okResponse (VMap cur)] [])
  = (StateSet (workflowDefCleanup (delete "version" cur), 2),
     MkClient [] [getRequest "w1"]).
Proof.
  intros cur.
  apply (ImportState_then_Read Script scripted_send
           (MkClient [okResponse (VMap cur)] []) "w1"
           (MkResponse StatusOK (JsonDoc (VMap cur)) false) [] cur 2);
    [discriminate|vm_compute; reflexivity..].
Defined.

(** ** Read without drift *)

(** If every entry of the server's task definition that survives the
    clean-up is stored with the same value, Read writes the stored
    manifest back unchanged: fields the server fills with defaults cause
    no drift. *)
Theorem TaskDef_Read_no_drift :
  ∀ (Server : Type) (send : Request → Server → option Response * Server)
    (c : Client Server) (stateManifestMap cur : gmap string value) taskType r s1,
    getTaskTypeFromManifest stateManifestMap = Ok taskType →
    send (MkRequest MethodGet (taskdefPath taskType) None) (server c) = (Some r, s1) →
    StatusCode r = StatusOK → ReadAllErr r = false → Body r = JsonDoc (VMap cur) →
    cleanupManifestDefaults (pinAuditableFields cur stateManifestMap) defaultTaskDefValues
      ⊆ stateManifestMap →
    TaskDef_Read send (JsonDoc (VMap stateManifestMap)) c
    = (StateSet stateManifestMap,
       MkClient s1 (sent c ++ [MkRequest MethodGet (taskdefPath taskType) None])).
Proof.
  intros Server send c st cur taskType r s1 Hname Hsend Hok Hread Hbody Hsub.
  unfold TaskDef_Read, client_do. cbn [unmarshalMap].
  rewrite Hname, Hsend, Hok, Hread, Hbody. simpl.
  unfold taskDefCleanupAndMerge. by rewrite mergeManifestMaps_subseteq.
Qed.

Lemma TaskDef_Read_no_drift_witness :
  let st : gmap string value :=
    list_to_map [("name", VString "t1"); ("retryCount", float64_of_Z 4)] in
  let cur : gmap string value :=
    list_to_map [("name", VString "t1"); ("retryCount", float64_of_Z 4);
                 ("retryLogic", VString "FIXED"); ("timeoutSeconds", float64_of_Z 0);
                 ("inputKeys", VSlice []); ("createTime", float64_of_Z 7)] in
  TaskDef_Read scripted_send (JsonDoc (VMap st)) (MkClient [okResponse (VMap cur)] [])
  = (StateSet st, MkClient [] [MkRequest MethodGet (taskdefPath "t1") None]).
Proof.
  intros st cur.
  apply (TaskDef_Read_no_drift Script scripted_send
           (MkClient [okResponse (VMap cur)] []) st cur "t1"
           (MkResponse StatusOK (JsonDoc (VMap cur)) false) []);
    try (vm_compute; reflexivity).
  apply map_subseteq_spec. intros k v Hk.
  assert (Heq : cleanupManifestDefaults (pinAuditableFields cur st) defaultTaskDefValues
                = st) by (vm_compute; reflexivity).
  by rewrite Heq in Hk.
Defined.

(** ** The task slices in a merge *)

Lemma length_mergeTasks (ca sa : list value) :
  length (mergeTasks ca sa) = length sa.
Proof.
  revert sa. induction ca as [|c ca IH]; intros [|s sa]; simpl; f_equal; auto.
Qed.

Lemma drop_mergeTasks (ca sa : list value) :
  drop (length ca) (mergeTasks ca sa) = drop (length ca) sa.
Proof.
  revert sa. induction ca as [|c ca IH]; intros [|s sa]; simpl; auto.
Qed.

(** The task at an index after the loop of lines 587-604: the merge of the
    server's task at this index into the stored task at this index when
    both are maps, and the stored task at this index otherwise. *)
Lemma mergeTasks_lookup (ca sa : list value) (i : nat) :
  mergeTasks ca sa !! i
  = match ca !! i, sa !! i with
    | Some (VMap currentTask), Some (VMap stateTask) =>
        Some (VMap (mergeManifestMaps currentTask stateTask))
    | _, stateTask => stateTask
    end.
Proof.
  revert sa i. induction ca as [|c ca IH]; intros [|s sa] i.
  - by destruct i.
  - simpl. by destruct (_ !! i).
  - simpl. by repeat case_match.
  - destruct i as [|i]; [|exact (IH sa i)].
    simpl. by destruct c, s.
Qed.

(** When both manifests hold a task slice, workflowDefMerge keeps the
    number of stored tasks and pairs the tasks by index: the task at index
    [i] of the result is the merge of the server's task at index [i] into
    the stored task at index [i] when both are maps, and the stored task at
    index [i] otherwise; the stored tasks beyond the server's are left as
    they are, and no server task is appended. *)
Theorem workflowDefMerge_tasks (currentManifestMap stateManifestMap : gmap string value)
    currentTasksArr stateTasksArr :
  currentManifestMap !! "tasks" = Some (VSlice currentTasksArr) →
  stateManifestMap !! "tasks" = Some (VSlice stateTasksArr) →
  ∃ tasks',
    workflowDefMerge currentManifestMap stateManifestMap !! "tasks" = Some (VSlice tasks') ∧
    length tasks' = length stateTasksArr ∧
    drop (length currentTasksArr) tasks' = drop (length currentTasksArr) stateTasksArr ∧
    ∀ i : nat,
      tasks' !! i
      = match currentTasksArr !! i, stateTasksArr !! i with
        | Some (VMap currentTask), Some (VMap stateTask) =>
            Some (VMap (mergeManifestMaps currentTask stateTask))
        | _, stateTask => stateTask
        end.
Proof.
  intros Hcur Hst. unfold workflowDefMerge. rewrite Hcur.
  rewrite mergeManifestMaps_lookup, Hcur, Hst.
  rewrite bool_decide_eq_true_2 by eauto. simpl.
  exists (mergeTasks currentTasksArr stateTasksArr).
  rewrite lookup_insert_eq, length_mergeTasks, drop_mergeTasks.
  repeat split. apply mergeTasks_lookup.
Qed.

(** Two server tasks against three stored tasks: each server task goes
    into the stored task of its own index, and the third stored task is
    left as it is. *)
Lemma workflowDefMerge_tasks_witness :
  let cur : gmap string value :=
    {["tasks" := VSlice [VMap {["type" := VString "HTTP"]};
                         VMap {["type" := VString "SIMPLE"]}]]} in
  let st : gmap string value :=
    {["tasks" := VSlice [VMap {["name" := VString "a"]}; VMap {["name" := VString "b"]};
                         VMap {["name" := VString "c"]}]]} in
  ∃ tasks', workflowDefMerge cur st !! "tasks" = Some (VSlice tasks') ∧
            length tasks' = 3%nat ∧
            tasks' !! 0%nat
            = Some (VMap (list_to_map [("name", VString "a"); ("type", VString "HTTP")])) ∧
            tasks' !! 1%nat
            = Some (VMap (list_to_map [("name", VString "b"); ("type", VString "SIMPLE")])) ∧
            tasks' !! 2%nat = Some (VMap {["name" := VString "c"]}).
Proof.
  intros cur st.
  destruct (workflowDefMerge_tasks cur st
              [VMap {["type" := VString "HTTP"]}; VMap {["type" := VString "SIMPLE"]}]
              [VMap {["name" := VString "a"]}; VMap {["name" := VString "b"]};
               VMap {["name" := VString "c"]}] eq_refl eq_refl)
    as (tasks' & Htasks & Hlen & _ & Hi).
  exists tasks'. split; [exact Htasks|]. split; [exact Hlen|].
  rewrite (Hi 0%nat), (Hi 1%nat), (Hi 2%nat).
  repeat split; vm_compute; reflexivity.
Defined.

(** ** The requests an operation issues *)

Section RequestsIssued.
Context {Server : Type}.
Variable send : Request → Server → option Response * Server.
Implicit Types (c : Client Server) (planMap : gmap string value).

Lemma getLatestVersion_sent name c :
  sent (snd (getLatestVersion send name c)) = sent c ++ [getRequest name] ∧
  ∀ v, fst (getLatestVersion send name c) = Ok (Some v) → 1 ≤ v ≤ MaxInt32.
Proof.
  unfold getLatestVersion, client_do. fold (getRequest name).
  destruct (send (getRequest name) (server c)) as [[r|] s1]; [|by split].
  destruct (StatusCode r =? StatusNotFound); [by split|].
  destruct (ReadAllErr r); [by split|].
  destruct (negb _); [by split|].
  destruct (unmarshalMap (Body r)) as [cur|]; [|by split].
  destruct (getWorkflowVersionFromManifest cur) as [v'|] eqn:Hv; [|by split].
  split; [done|]. intros v [= <-]. by eapply getWorkflowVersionFromManifest_bounds.
Qed.

Lemma WorkflowDef_Delete_loop_requests fuel name :
  ∀ currentVersion c,
    ∃ extra,
      sent (snd (WorkflowDef_Delete_loop send fuel name currentVersion c))
      = sent c ++ extra ∧
      Forall (λ req, req = getRequest name ∨
                     ∃ v, 1 ≤ v ≤ MaxInt32 ∧ req = deleteRequest name v) extra.
Proof.
  induction fuel as [|fuel IH]; intros currentVersion c.
  - exists []. by rewrite app_nil_r.
  - cbn [WorkflowDef_Delete_loop].
    destruct (getLatestVersion_sent name c) as [Hsent Hbounds].
    assert (Hget : Forall (λ req, req = getRequest name ∨
                     ∃ v, 1 ≤ v ≤ MaxInt32 ∧ req = deleteRequest name v)
                     [getRequest name])
      by (constructor; [by left|constructor]).
    destruct (getLatestVersion send name c) as [[[next|]|d] c1]; simpl in *;
      [|by exists [getRequest name]..].
    specialize (Hbounds next eq_refl).
    assert (Hboth : Forall (λ req, req = getRequest name ∨
                      ∃ v, 1 ≤ v ≤ MaxInt32 ∧ req = deleteRequest name v)
                      [getRequest name; deleteRequest name next])
      by (constructor; [by left|constructor; [right; eauto|constructor]]).
    destruct (_ && _); [by exists [getRequest name]|].
    unfold client_do. fold (deleteRequest name next).
    destruct (send (deleteRequest name next) (server c1)) as [[r|] s2]; simpl.
    + destruct (negb _).
      * exists [getRequest name; deleteRequest name next]. simpl.
        by rewrite Hsent, <- app_assoc.
      * destruct (IH next (MkClient s2 (sent c1 ++ [deleteRequest name next])))
          as (extra & Hextra & Hall).
        exists ([getRequest name; deleteRequest name next] ++ extra).
        rewrite Hextra. simpl. rewrite Hsent, <- !app_assoc. split; [done|].
        by apply (Forall_app_2 _ [getRequest name; deleteRequest name next] extra).
    + exists [getRequest name; deleteRequest name next]. simpl.
      by rewrite Hsent, <- app_assoc.
Qed.

Lemma checkExistingVersionBeforeCreate_sent planMap c :
  let '(_, _, manifestMap, c1) := checkExistingVersionBeforeCreate send planMap c in
  (sent c1 = sent c ∨ ∃ name, sent c1 = sent c ++ [getRequest name]) ∧
  (manifestMap = planMap ∨ manifestMap = workflowDefCleanup planMap).
Proof.
  unfold checkExistingVersionBeforeCreate, client_do.
  destruct (getWorkflowNameFromManifest planMap) as [name|]; [|by auto].
  destruct (getWorkflowVersionOptionalFromManifest planMap) as [pv|]; [|by auto].
  fold (getRequest name).
  destruct (send (getRequest name) (server c)) as [[r|] s1]; simpl; [|by eauto].
  destruct (StatusCode r =? StatusNotFound); [destruct pv; by eauto|].
  destruct (ReadAllErr r); [by eauto|].
  destruct (negb _); [by eauto|].
  destruct (unmarshalMap (Body r)) as [cur|]; [|by eauto].
  destruct (getWorkflowVersionFromManifest cur); [|by eauto].
  destruct pv as [pv|]; [destruct (pv <? _); by eauto|].
  destruct (DeepEqualMap _ _); by eauto.
Qed.

End RequestsIssued.

Lemma deleteAuditableFields_None (m : gmap string value) f :
  f ∈ auditableFieldsToIgnore → deleteAuditableFields m !! f = None.
Proof. intros Hf. by rewrite deleteAuditableFields_lookup, bool_decide_eq_true_2. Qed.

Lemma auditable_not_version f : f ∈ auditableFieldsToIgnore → f ≠ "version".
Proof.
  unfold auditableFieldsToIgnore. rewrite !elem_of_cons, elem_of_nil.
  intros [->|[->|[->|[->|[]]]]]; discriminate.
Qed.

(** Delete of a workflow only reads the name and deletes versions of it:
    whatever the server answers and however long the loop runs, every
    request issued is the GET for the manifest's name or the DELETE of a
    version of that name between 1 and the largest int32; nothing is ever
    written and no other name is touched. *)
Theorem WorkflowDef_Delete_requests :
  ∀ (Server : Type) (send : Request → Server → option Response * Server)
    (fuel : nat) (c : Client Server) (manifestMap : gmap string value) name,
    getWorkflowNameFromManifest manifestMap = Ok name →
    ∃ extra,
      sent (snd (WorkflowDef_Delete send fuel (JsonDoc (VMap manifestMap)) c))
      = sent c ++ extra ∧
      Forall (λ req, req = getRequest name ∨
                     ∃ v, 1 ≤ v ≤ MaxInt32 ∧ req = deleteRequest name v) extra.
Proof.
  intros Server send fuel c manifestMap name Hname.
  rewrite (WorkflowDef_Delete_unfold send fuel c manifestMap name Hname).
  apply WorkflowDef_Delete_loop_requests.
Qed.

Lemma WorkflowDef_Delete_requests_witness :
  ∃ extra,
    sent (snd (WorkflowDef_Delete store_send 5 (JsonDoc (VMap {["name" := VString "w1"]}))
                 (MkClient (MkWorkflowStore "w1" (versionsDownFrom 2)) [])))
    = [] ++ extra ∧
    Forall (λ req, req = getRequest "w1" ∨
                   ∃ v, 1 ≤ v ≤ MaxInt32 ∧ req = deleteRequest "w1" v) extra.
Proof.
  apply (WorkflowDef_Delete_requests WorkflowStore store_send 5
           (MkClient (MkWorkflowStore "w1" (versionsDownFrom 2)) [])
           {["name" := VString "w1"]} "w1").
  reflexivity.
Defined.

Lemma carriesNoAuditableField_get method path :
  carriesNoAuditableField (MkRequest method path None).
Proof. intros m f. discriminate. Qed.

Lemma carriesNoAuditableField_version (m : gmap string value) x method path :
  carriesNoAuditableField
    (MkRequest method path
       (Some (VSlice [VMap (<["version" := x]> (deleteAuditableFields m))]))).
Proof.
  intros m' f [= <-] Hf.
  rewrite lookup_insert_ne by (symmetry; by apply auditable_not_version).
  by apply deleteAuditableFields_None.
Qed.

Lemma carriesNoAuditableField_array (m : gmap string value) method path :
  carriesNoAuditableField
    (MkRequest method path (Some (VSlice [VMap (deleteAuditableFields m)]))).
Proof. intros m' f [= <-] Hf. by apply deleteAuditableFields_None. Qed.

Lemma carriesNoAuditableField_marshalMap text (m : gmap string value) method path :
  carriesNoAuditableField
    (MkRequest method path (Some (marshalMap text (deleteAuditableFields m)))) ∧
  carriesNoAuditableField
    (MkRequest method path (Some (VSlice [marshalMap text (deleteAuditableFields m)]))).
Proof.
  unfold marshalMap. destruct (isNilMap text).
  - split; intros m' f; discriminate.
  - split; intros m' f [= <-] Hf; by apply deleteAuditableFields_None.
Qed.

Section Writes.
Context {Server : Type}.
Variable send : Request → Server → option Response * Server.
Implicit Types (c : Client Server).

Lemma cleanWrites_nil l : cleanWrites l l.
Proof. exists []. rewrite app_nil_r. repeat split; [constructor|simpl; lia]. Qed.

Lemma cleanWrites_one l req :
  carriesNoAuditableField req → cleanWrites l (l ++ [req]).
Proof.
  intros Hreq. exists [req]. repeat split; [by repeat constructor|].
  unfold nonGets. simpl. destruct (negb _); simpl; lia.
Qed.

Lemma cleanWrites_get_then l name req :
  carriesNoAuditableField req →
  cleanWrites l ((l ++ [getRequest name]) ++ [req]).
Proof.
  intros Hreq. exists [getRequest name; req]. rewrite <- app_assoc.
  repeat split; [|unfold nonGets; simpl; destruct (negb _); simpl; lia].
  constructor; [apply carriesNoAuditableField_get|by repeat constructor].
Qed.

Lemma WorkflowDef_Create_cleanWrites planManifest c :
  cleanWrites (sent c) (sent (snd (WorkflowDef_Create send planManifest c))).
Proof.
  unfold WorkflowDef_Create.
  destruct (unmarshalMap planManifest) as [planMap|]; [|apply cleanWrites_nil].
  pose proof (checkExistingVersionBeforeCreate_sent send planMap c) as Hcheck.
  destruct (checkExistingVersionBeforeCreate send planMap c)
    as [[[[cv sc] ds] mm] c1].
  destruct Hcheck as [Hsent _].
  assert (Hc1 : cleanWrites (sent c) (sent c1)).
  { destruct Hsent as [->|[name ->]]; [apply cleanWrites_nil|].
    apply cleanWrites_one, carriesNoAuditableField_get. }
  destruct ds; [|done]. destruct sc; [|done].
  unfold client_do.
  assert (Hput : cleanWrites (sent c)
                   (sent c1 ++ [MkRequest MethodPut "metadata/workflow"
                      (Some (VSlice [VMap (<["version" := VInt32 cv]>
                                             (deleteAuditableFields mm))]))])).
  { destruct Hsent as [->|[name ->]].
    - apply cleanWrites_one, carriesNoAuditableField_version.
    - apply cleanWrites_get_then, carriesNoAuditableField_version. }
  destruct (send _ (server c1)) as [[r|] s2]; simpl; [|done].
  destruct (negb _); [done|]. by destruct (ReadAllErr r).
Qed.

Lemma verifyValidVersionForUpdate_sent (planMap : gmap string value) planVersion c :
  let c1 := snd (verifyValidVersionForUpdate send planMap planVersion c) in
  sent c1 = sent c ∨ ∃ name, sent c1 = sent c ++ [getRequest name].
Proof.
  unfold verifyValidVersionForUpdate, client_do.
  destruct (getWorkflowNameFromManifest planMap) as [name|]; [|by left].
  fold (getRequest name).
  destruct (send (getRequest name) (server c)) as [[r|] s1]; simpl; [|by eauto].
  destruct (StatusCode r =? StatusNotFound); [by eauto|].
  destruct (negb _); [by eauto|].
  destruct (unmarshalMap (Body r)) as [cur|]; [|by eauto].
  destruct (getWorkflowVersionFromManifest cur); [|by eauto].
  destruct (planVersion <? _); by eauto.
Qed.

Lemma WorkflowDef_Update_cleanWrites planManifest stateVersion c :
  cleanWrites (sent c) (sent (snd (WorkflowDef_Update send planManifest stateVersion c))).
Proof.
  unfold WorkflowDef_Update.
  destruct (unmarshalMap planManifest) as [planMap|]; [|apply cleanWrites_nil].
  destruct (getWorkflowVersionOptionalFromManifest _) as [[pv|]|];
    [| |apply cleanWrites_nil].
  - pose proof (verifyValidVersionForUpdate_sent (deleteAuditableFields planMap) pv c)
      as Hsent. cbv zeta in Hsent.
    destruct (verifyValidVersionForUpdate send _ pv c) as [verdict c1]. simpl in Hsent.
    assert (Hc1 : cleanWrites (sent c) (sent c1)).
    { destruct Hsent as [->|[name ->]]; [apply cleanWrites_nil|].
      apply cleanWrites_one, carriesNoAuditableField_get. }
    destruct verdict as [[|d ds]|]; [|done..]. unfold client_do.
    assert (Hput : cleanWrites (sent c)
                     (sent c1 ++ [MkRequest MethodPut "metadata/workflow"
                        (Some (VSlice [VMap (deleteAuditableFields planMap)]))])).
    { destruct Hsent as [->|[name ->]].
      - apply cleanWrites_one, carriesNoAuditableField_array.
      - apply cleanWrites_get_then, carriesNoAuditableField_array. }
    destruct (send _ (server c1)) as [[r|] s2]; simpl; [|done].
    destruct (StatusCode r =? StatusNotFound); [done|].
    destruct (negb _); [|done]. by destruct (ReadAllErr r).
  - destruct (isNilMap planManifest); [apply cleanWrites_nil|]. unfold client_do.
    pose proof (cleanWrites_one (sent c) _
                  (carriesNoAuditableField_version planMap
                     (VInt32 (int32_add stateVersion 1)) MethodPut "metadata/workflow"))
      as Hput.
    destruct (send _ (server c)) as [[r|] s2]; simpl; [|done].
    destruct (StatusCode r =? StatusNotFound); [done|].
    destruct (negb _); [|done]. by destruct (ReadAllErr r).
Qed.

Lemma TaskDef_Create_cleanWrites planManifest c :
  cleanWrites (sent c) (sent (snd (TaskDef_Create send planManifest c))).
Proof.
  unfold TaskDef_Create.
  destruct (unmarshalMap planManifest) as [planMap|]; [|apply cleanWrites_nil].
  unfold client_do.
  pose proof (cleanWrites_one (sent c) _
                (proj2 (carriesNoAuditableField_marshalMap planManifest planMap
                          MethodPost "metadata/taskdefs"))) as Hpost.
  destruct (send _ (server c)) as [[r|] s2]; simpl; [|done].
  destruct (negb _); [done|]. by destruct (ReadAllErr r).
Qed.

Lemma TaskDef_Update_cleanWrites planManifest c :
  cleanWrites (sent c) (sent (snd (TaskDef_Update send planManifest c))).
Proof.
  unfold TaskDef_Update.
  destruct (unmarshalMap planManifest) as [planMap|]; [|apply cleanWrites_nil].
  unfold client_do.
  pose proof (cleanWrites_one (sent c) _
                (proj1 (carriesNoAuditableField_marshalMap planManifest planMap
                          MethodPut "metadata/taskdefs"))) as Hput.
  destruct (send _ (server c)) as [[r|] s2]; simpl; [|done].
  destruct (StatusCode r =? StatusNotFound); [done|].
  destruct (negb _); [|done]. by destruct (ReadAllErr r).
Qed.

End Writes.

(** Server-owned fields are never sent and an operation writes at most
    once: whatever the manifest and whatever the server answers, the
    requests that Create and Update of either resource add are the earlier
    requests followed by requests of which none carries createTime,
    updateTime, createdBy or updatedBy in its manifest and at most one is
    not a GET. *)
Theorem writes_carry_no_auditable_fields :
  ∀ (Server : Type) (send : Request → Server → option Response * Server)
    (c : Client Server) (planManifest : JsonText) (stateVersion : Z),
    cleanWrites (sent c) (sent (snd (WorkflowDef_Create send planManifest c))) ∧
    cleanWrites (sent c)
      (sent (snd (WorkflowDef_Update send planManifest stateVersion c))) ∧
    cleanWrites (sent c) (sent (snd (TaskDef_Create send planManifest c))) ∧
    cleanWrites (sent c) (sent (snd (TaskDef_Update send planManifest c))).
Proof.
  intros Server send c planManifest stateVersion. repeat split.
  - apply WorkflowDef_Create_cleanWrites.
  - apply WorkflowDef_Update_cleanWrites.
  - apply TaskDef_Create_cleanWrites.
  - apply TaskDef_Update_cleanWrites.
Qed.

(** ** Manual versions never go below the server's *)

Lemma updateOutcome_StateSet newVersion res w v :
  updateOutcome newVersion res w → res = StateSet v → v = newVersion.
Proof.
  unfold updateOutcome. intros H ->. destruct w as [r|]; [|done].
  destruct (StatusCode r =? StatusNotFound); [done|].
  destruct (StatusCode r =? StatusOK); [by injection H|done].
Qed.

(** In manual mode neither Create nor Update ever tracks a version below
    the server's: when the GET reports version [currentVersion] for the
    name and the operation sets the state, the tracked version is the
    requested one and is at least [currentVersion]. *)
Theorem manual_version_not_below_server :
  ∀ (Server : Type) (send : Request → Server → option Response * Server)
    (c : Client Server) (planMap : gmap string value) name planVersion
    r s1 currentVersion (stateVersion tracked : Z),
    getWorkflowNameFromManifest planMap = Ok name →
    getWorkflowVersionOptionalFromManifest planMap = Ok (Some planVersion) →
    send (getRequest name) (server c) = (Some r, s1) →
    serverVersion r = Some currentVersion →
    (fst (WorkflowDef_Create send (JsonDoc (VMap planMap)) c) = StateSet tracked →
       tracked = planVersion ∧ currentVersion ≤ tracked) ∧
    (fst (WorkflowDef_Update send (JsonDoc (VMap planMap)) stateVersion c)
     = StateSet tracked →
       tracked = planVersion ∧ currentVersion ≤ tracked).
Proof.
  intros Server send c planMap name planVersion r s1 currentVersion stateVersion
    tracked Hname Hver Hsend Hcv.
  split.
  - pose proof (WorkflowDef_Create_manual send c planMap name planVersion r s1
                  Hname Hver Hsend) as [_ Hpresent].
    apply serverVersion_inv in Hcv as (cur & Hcur & Hcv).
    specialize (Hpresent cur currentVersion Hcur Hcv).
    destruct (Z.ltb_spec planVersion currentVersion) as [Hlt|Hge].
    + rewrite Hpresent. discriminate.
    + destruct Hpresent as [_ Hfst]. intros Hset.
      destruct (acceptedWrite _); rewrite Hset in Hfst; [|discriminate].
      injection Hfst as ->. by split.
  - pose proof (WorkflowDef_Update_manual send c planMap name planVersion stateVersion
                  r s1 Hname Hver Hsend) as [_ Hpresent].
    specialize (Hpresent currentVersion Hcv).
    destruct (Z.ltb_spec planVersion currentVersion) as [Hlt|Hge].
    + rewrite Hpresent. discriminate.
    + destruct Hpresent as [_ Hout]. intros Hset.
      by rewrite (updateOutcome_StateSet _ _ _ _ Hout Hset).
Qed.

Lemma manual_version_not_below_server_witness :
  let planMap : gmap string value :=
    list_to_map [("name", VString "w1"); ("version", float64_of_Z 5)] in
  fst (WorkflowDef_Update scripted_send (JsonDoc (VMap planMap)) 3
         (MkClient [okResponse (workflowDocument "w1" 3); statusResponse StatusOK] []))
  = StateSet 5 ∧ 3 ≤ 5.
Proof.
  intros planMap.
  assert (H : fst (WorkflowDef_Update scripted_send (JsonDoc (VMap planMap)) 3
                     (MkClient [okResponse (workflowDocument "w1" 3);
                                statusResponse StatusOK] []))
              = StateSet 5) by (vm_compute; reflexivity).
  split; [exact H|].
  assert (Hname : getWorkflowNameFromManifest planMap = Ok "w1")
    by (vm_compute; reflexivity).
  assert (Hver : getWorkflowVersionOptionalFromManifest planMap = Ok (Some 5))
    by (vm_compute; reflexivity).
  assert (Hcv : serverVersion (MkResponse StatusOK (JsonDoc (workflowDocument "w1" 3))
                                 false) = Some 3) by (vm_compute; reflexivity).
  exact (proj2 (proj2 (manual_version_not_below_server Script scripted_send
                         (MkClient [okResponse (workflowDocument "w1" 3);
                                    statusResponse StatusOK] [])
                         planMap "w1" 5
                         (MkResponse StatusOK (JsonDoc (workflowDocument "w1" 3)) false)
                         [statusResponse StatusOK] 3 3 5 Hname Hver eq_refl Hcv) H)).
Defined.
